(** * Household power-consumption tracker: a model of [app.py]

    The Flask application keeps two tables that matter here, [Appliance] and
    [DailyConsumption], and serves five handlers over them.  Numbers are
    Python floats, modelled by Rocq's primitive binary64 floats; tables are
    lists in rowid order; Python dictionaries are association lists in
    insertion order; a handler is a function from a request and a database to
    an outcome and a database, where a request that raises leaves the
    database as it found it (the session is never committed).

    The float columns are declared NOT NULL and the SQLite driver writes a
    NaN as NULL, so a flush that carries a NaN raises IntegrityError; every
    other float is taken to be kept and handed back unchanged.  Left out: the [created_at] timestamps, the [MonthlySummary]
    table that no handler touches, and the HTML templates. *)

From Stdlib Require Import ZArith List String Ascii Bool Lia Floats DecimalString.
From Stdlib Require Import Permutation Sorted.
Import ListNotations.

Set Warnings "-inexact-float".

Local Open Scope string_scope.
Local Open Scope list_scope.
Local Open Scope Z_scope.

(** ** Python numbers *)

Module Py.

(** A Python number as the handlers meet it: the literal [0] is an [int],
    every column value and every tariff is a [float]. *)
Inductive num : Type :=
| PyInt (z : Z)
| PyFloat (f : float).

(** [float(z)]: the binary64 value nearest to an integer. *)
Definition float_of_Z (z : Z) : float :=
  SF2Prim (binary_normalize prec emax z 0 false).

Definition to_float (n : num) : float :=
  match n with
  | PyInt z => float_of_Z z
  | PyFloat f => f
  end.

(** [a + b]: integer addition on two ints, float addition otherwise. *)
Definition add (a b : num) : num :=
  match a, b with
  | PyInt x, PyInt y => PyInt (x + y)
  | _, _ => PyFloat (to_float a + to_float b)
  end.

(** [a * b]. *)
Definition mul (a b : num) : num :=
  match a, b with
  | PyInt x, PyInt y => PyInt (x * y)
  | _, _ => PyFloat (to_float a * to_float b)
  end.

(** [a > b].  Python compares an int with a float by value; converting the
    int is exact below 2^53, and the only int that ever meets a float in
    the handlers is [0]. *)
Definition gt (a b : num) : bool :=
  match a, b with
  | PyInt x, PyInt y => y <? x
  | _, _ => (to_float b <? to_float a)%float
  end.

(** [sum(xs)]: a left fold of [+] from the int [0].  (Recent CPython
    versions compensate the rounding of float sums; the two agree on lists
    of ints and on lists with at most one non-zero entry.) *)
Definition sum (xs : list num) : num :=
  fold_left add xs (PyInt 0).

(** [str(z)] for an int, as an f-string formats it. *)
Definition str (z : Z) : string :=
  NilZero.string_of_int (Z.to_int z).

End Py.

Export Py(num, PyInt, PyFloat).

Arguments Py.gt : simpl never.
Arguments Py.float_of_Z : simpl never.

(** ** Dictionaries *)

(** Keys with a decidable equality (Python: hashable keys compared by [==]). *)
Class EqKey (K : Type) : Type := {
  key_eqb : K -> K -> bool;
  key_eqb_spec : forall x y, reflect (x = y) (key_eqb x y)
}.

#[export] Instance string_EqKey : EqKey string :=
  {| key_eqb := String.eqb; key_eqb_spec := String.eqb_spec |}.

#[export] Instance Z_EqKey : EqKey Z :=
  {| key_eqb := Z.eqb; key_eqb_spec := Z.eqb_spec |}.

Module Dict.
Section Dict.
Context {K V : Type} `{EqKey K}.

(** A [dict] in insertion order; a werkzeug [MultiDict] read with [[k]] or
    [.get(k)] behaves the same (the first value of the key). *)
Definition t : Type := list (K * V).

Definition empty : t := [].

(** [d.get(k)]; [d[k]] raises [KeyError] where this is [None]. *)
Fixpoint get (k : K) (d : t) : option V :=
  match d with
  | [] => None
  | (k', v) :: d' => if key_eqb k k' then Some v else get k d'
  end.

(** [d[k] = v]: overwrite in place, or append a new entry. *)
Fixpoint set (k : K) (v : V) (d : t) : t :=
  match d with
  | [] => [(k, v)]
  | (k', v') :: d' =>
      if key_eqb k k' then (k', v) :: d' else (k', v') :: set k v d'
  end.

Definition keys (d : t) : list K := map fst d.
Definition values (d : t) : list V := map snd d.

End Dict.
Arguments t : clear implicits.
End Dict.

(** ** The static tariff table *)

Module Tariff.
Record t : Type := mk {
  voltage : Z;
  frequency : Z;
  cost_per_kwh : float
}.
End Tariff.

Definition COUNTRY_DATA : Dict.t string Tariff.t := [
  ("USA", Tariff.mk 120 60 0.15);
  ("Canada", Tariff.mk 120 60 0.12);
  ("UK", Tariff.mk 230 50 0.22);
  ("Germany", Tariff.mk 230 50 0.35);
  ("France", Tariff.mk 230 50 0.19);
  ("Australia", Tariff.mk 230 50 0.25);
  ("Japan", Tariff.mk 100 50 0.26);
  ("India", Tariff.mk 230 50 0.08);
  ("China", Tariff.mk 220 50 0.10);
  ("Brazil", Tariff.mk 127 60 0.18)
].

(** ** Database models *)

Module Appliance.
Record t : Type := mk {
  id : Z;
  name : string;
  power_watts : float
}.
End Appliance.

Module DailyConsumption.
Record t : Type := mk {
  id : Z;
  date : string;
  appliance_id : Z;
  hours_used : float;
  consumption_kwh : float
}.
End DailyConsumption.

Record database : Type := mkdb {
  appliance_table : list Appliance.t;
  daily_consumption_table : list DailyConsumption.t
}.

(** The tables [db.create_all()] makes in a fresh file. *)
Definition create_all : database := mkdb [] [].

(** The integer primary key SQLite gives a new row: one more than the
    largest rowid in the table. *)
Definition new_rowid (ids : list Z) : Z := 1 + fold_right Z.max 0 ids.

(** [Appliance.query.get(id)]. *)
Definition appliance_get (appliance_id : Z) (db : database) : option Appliance.t :=
  find (fun a => Appliance.id a =? appliance_id) (appliance_table db).

(** The predicate of [filter_by(date=..., appliance_id=...)]. *)
Definition same_day_appliance (date_str : string) (appliance_id : Z)
    (dc : DailyConsumption.t) : bool :=
  String.eqb (DailyConsumption.date dc) date_str
  && (DailyConsumption.appliance_id dc =? appliance_id).

(** [UPDATE daily_consumption SET ... WHERE id = ?], as the flush of a
    modified row object writes it. *)
Definition update_row (dc' : DailyConsumption.t)
    (rows : list DailyConsumption.t) : list DailyConsumption.t :=
  map (fun dc => if DailyConsumption.id dc =? DailyConsumption.id dc' then dc' else dc) rows.

(** [DELETE FROM daily_consumption WHERE id = ?] for each of [children]. *)
Definition delete_rows (children rows : list DailyConsumption.t)
    : list DailyConsumption.t :=
  filter (fun dc =>
            negb (existsb (fun c => DailyConsumption.id c =? DailyConsumption.id dc) children))
         rows.

(** [db.session.delete(appliance)] under [cascade="all, delete-orphan"]: the
    rows of the relationship [appliance.daily_consumptions] go first, then
    the appliance row itself. *)
Definition session_delete (appliance : Appliance.t) (db : database) : database :=
  let daily_consumptions :=
    filter (fun dc => DailyConsumption.appliance_id dc =? Appliance.id appliance)
           (daily_consumption_table db) in
  mkdb (filter (fun a => negb (Appliance.id a =? Appliance.id appliance))
               (appliance_table db))
       (delete_rows daily_consumptions (daily_consumption_table db)).

Definition ascii_lower (c : ascii) : ascii :=
  let n := nat_of_ascii c in
  if ((65 <=? n) && (n <=? 90))%nat then ascii_of_nat (n + 32) else c.

(** SQLite's [LIKE]: [%] matches any run of characters, [_] any one
    character, and ASCII letters match without regard to case. *)
Fixpoint sql_like (pattern s : string) : bool :=
  match pattern with
  | EmptyString =>
      match s with
      | EmptyString => true
      | String _ _ => false
      end
  | String p pattern' =>
      if Ascii.eqb p "%" then
        (fix skip (s : string) : bool :=
           sql_like pattern' s
           || match s with
              | EmptyString => false
              | String _ s' => skip s'
              end) s
      else
        match s with
        | EmptyString => false
        | String c s' =>
            (Ascii.eqb p "_" || Ascii.eqb (ascii_lower p) (ascii_lower c))
            && sql_like pattern' s'
        end
  end.

(** [DailyConsumption.query.filter(DailyConsumption.date.like(f"{month}-%")).all()]. *)
Definition month_rows (month : string) (db : database) : list DailyConsumption.t :=
  filter (fun dc => sql_like (month ++ "-%")%string (DailyConsumption.date dc))
         (daily_consumption_table db).

(** ** Requests and outcomes *)

Inductive http_method : Type := GET | POST.

Record request : Type := mkreq {
  method : http_method;
  form : Dict.t string string;
  args : Dict.t string string
}.

Inductive exception : Type :=
| KeyError
| ValueError
| IntegrityError
| OverflowError.

(** What a handler call ends in: a redirect to an endpoint, a rendered page,
    an [abort(status)], or an exception nobody catches. *)
Inductive outcome (A : Type) : Type :=
| Redirect (endpoint : string)
| Render (page : A)
| Abort (status : Z)
| Raise (e : exception).

Arguments Redirect {A} endpoint.
Arguments Render {A} page.
Arguments Abort {A} status.
Arguments Raise {A} e.

(** Loops that may raise: a result or the exception. *)
Definition result (A : Type) : Type := exception + A.

Definition bind {A B : Type} (r : result A) (k : A -> result B) : result B :=
  match r with
  | inl e => inl e
  | inr a => k a
  end.

Declare Scope result_scope.
Delimit Scope result_scope with result.
Notation "x <- r ;; k" := (bind r (fun x => k))
  (at level 61, r at next level, right associativity) : result_scope.
Notation "' p <- r ;; k" := (bind r (fun x => let p := x in k))
  (at level 61, p pattern, r at next level, right associativity) : result_scope.

(** [d[k]] inside such a loop. *)
Definition getitem {K V : Type} `{EqKey K} (k : K) (d : Dict.t K V) : result V :=
  match Dict.get k d with
  | Some v => inr v
  | None => inl KeyError
  end.

(** ** Rendered pages *)

Module MonthlyResults.
(** The values [monthly_results] hands to its template. *)
Record page : Type := mk {
  month : string;
  country : string;
  total_kwh : num;
  total_cost : num;
  carbon_footprint : num;
  monthly_totals : Dict.t string num;
  daily_max_consumers : Dict.t string (string * num)
}.
End MonthlyResults.

Module DailyAnalysis.
(** The values [daily_analysis] hands to its template. *)
Record page : Type := mk {
  month : string;
  daily_max_consumers : Dict.t string (string * num);
  appliance_days : Dict.t string Z;
  most_frequent_max : option string * Z;
  total_days : Z
}.
End DailyAnalysis.

Module DailyInput.
(** The values the GET branch of [daily_input] hands to its template. *)
Record page : Type := mk {
  appliances : list Appliance.t;
  current_month : string;
  days_with_data : list string
}.
End DailyInput.

(** ** The handlers *)

Section Handlers.

(** Python's [float(s)] on a submitted string; [None] stands for the
    [ValueError] it raises on text that is not a number. *)
Variable py_float : string -> option float.

(** The order in which Python iterates [set(xs)] for a list of strings
    (it depends on the hashes, which change from process to process). *)
Variable set_iter : list string -> list string.

(** [/appliance-setup].  [request.form[k]] on a missing key ends the
    request with status 400; the commit of an appliance whose power is NaN
    fails on the NOT NULL column, and nothing is stored. *)
Definition appliance_setup (req : request) (db : database)
    : outcome (list Appliance.t) * database :=
  match method req with
  | POST =>
      match Dict.get "name" (form req) with
      | None => (Abort 400, db)
      | Some name =>
          match Dict.get "power_watts" (form req) with
          | None => (Abort 400, db)
          | Some s =>
              match py_float s with
              | None => (Raise ValueError, db)
              | Some power_watts =>
                  if is_nan power_watts then (Raise IntegrityError, db)
                  else
                    let appliance :=
                      Appliance.mk (new_rowid (map Appliance.id (appliance_table db)))
                                   name power_watts in
                    (Redirect "appliance_setup",
                     mkdb (appliance_table db ++ [appliance])
                          (daily_consumption_table db))
              end
          end
      end
  | GET => (Render (appliance_table db), db)
  end.

(** [/delete-appliance/<int:appliance_id>].  SQLite's integers have 64
    bits: no row has an id of 2^63 or more, and the driver refuses to bind
    such an id to the query of [get_or_404], which ends the request in
    OverflowError instead of a 404.  An id that the lookup finds is below
    that bound, so the bound is tested where the lookup has found nothing. *)
Definition delete_appliance (appliance_id : Z) (db : database)
    : outcome unit * database :=
  match appliance_get appliance_id db with
  | None =>
      if 2 ^ 63 <=? appliance_id then (Raise OverflowError, db) else (Abort 404, db)
  | Some appliance => (Redirect "appliance_setup", session_delete appliance db)
  end.

(** [float(request.form.get(f'hours_{appliance.id}', 0))]. *)
Definition hours_field (req : request) (appliance : Appliance.t) : result float :=
  match Dict.get ("hours_" ++ Py.str (Appliance.id appliance))%string (form req) with
  | None => inr (Py.float_of_Z 0)
  | Some s =>
      match py_float s with
      | None => inl ValueError
      | Some hours_used => inr hours_used
      end
  end.

(** The body of the [if hours_used > 0:] branch: compute the consumption,
    look for the row of that day and appliance, overwrite it or add one. *)
Definition upsert (date_str : string) (appliance : Appliance.t) (hours_used : float)
    (rows : list DailyConsumption.t) : list DailyConsumption.t :=
  let consumption_kwh := (Appliance.power_watts appliance * hours_used / 1000)%float in
  match find (same_day_appliance date_str (Appliance.id appliance)) rows with
  | Some existing =>
      update_row (DailyConsumption.mk (DailyConsumption.id existing)
                                      (DailyConsumption.date existing)
                                      (DailyConsumption.appliance_id existing)
                                      hours_used consumption_kwh)
                 rows
  | None =>
      rows ++ [DailyConsumption.mk (new_rowid (map DailyConsumption.id rows))
                                   date_str (Appliance.id appliance)
                                   hours_used consumption_kwh]
  end.

(** The flush of the session, which comes before every query and with the
    commit: a row that carries a NaN in a NOT NULL column cannot be
    written.  (No table holds such a row, so it is one the session has just
    added or changed.) *)
Definition flush (rows : list DailyConsumption.t) : result (list DailyConsumption.t) :=
  if existsb (fun dc => is_nan (DailyConsumption.hours_used dc)
                        || is_nan (DailyConsumption.consumption_kwh dc))
             rows
  then inl IntegrityError
  else inr rows.

(** [for appliance in appliances: ...] of the POST branch, over the rows
    of the open session; the query for the existing row flushes what the
    earlier turns of the loop left pending. *)
Fixpoint daily_input_loop (req : request) (date_str : string)
    (appliances : list Appliance.t) (rows : list DailyConsumption.t)
    : result (list DailyConsumption.t) :=
  match appliances with
  | [] => inr rows
  | appliance :: rest =>
      (hours_used <- hours_field req appliance ;;
       if Py.gt (PyFloat hours_used) (PyInt 0)
       then rows <- flush rows ;;
            daily_input_loop req date_str rest (upsert date_str appliance hours_used rows)
       else daily_input_loop req date_str rest rows)%result
  end.

(** The first occurrence of every element, in order: what
    [SELECT DISTINCT] returns for a column. *)
Fixpoint distinct (seen xs : list string) : list string :=
  match xs with
  | [] => []
  | x :: rest =>
      if in_dec string_dec x seen then distinct seen rest
      else x :: distinct (x :: seen) rest
  end.

(** [/daily-input]; [current_month] is [datetime.now().strftime("%Y-%m")].
    The commit after the loop flushes the session once more. *)
Definition daily_input (current_month : string) (req : request) (db : database)
    : outcome DailyInput.page * database :=
  let appliances := appliance_table db in
  match appliances with
  | [] => (Redirect "appliance_setup", db)
  | _ :: _ =>
      match method req with
      | POST =>
          match Dict.get "date" (form req) with
          | None => (Abort 400, db)
          | Some date_str =>
              match (rows <- daily_input_loop req date_str appliances
                                              (daily_consumption_table db) ;;
                     flush rows)%result with
              | inl e => (Raise e, db)
              | inr rows => (Redirect "daily_input", mkdb appliances rows)
              end
          end
      | GET =>
          let days_with_data :=
            distinct [] (map DailyConsumption.date (month_rows current_month db)) in
          (Render (DailyInput.mk appliances current_month days_with_data), db)
      end
  end.

(** [request.args.get(k, default)]. *)
Definition args_get (k default : string) (req : request) : string :=
  match Dict.get k (args req) with
  | Some v => v
  | None => default
  end.

(** [{app.id: app for app in appliances}]. *)
Definition appliance_map_of (appliances : list Appliance.t) : Dict.t Z Appliance.t :=
  fold_left (fun m app => Dict.set (Appliance.id app) app m) appliances Dict.empty.

(** [for appliance in appliances: monthly_totals[appliance.name] = 0]. *)
Definition zero_totals (appliances : list Appliance.t) : Dict.t string num :=
  fold_left (fun monthly_totals appliance =>
               Dict.set (Appliance.name appliance) (PyInt 0) monthly_totals)
            appliances Dict.empty.

(** [monthly_results], the loop [for dc in day_consumptions:]. *)
Fixpoint monthly_day_loop (appliance_map : Dict.t Z Appliance.t)
    (day_consumptions : list DailyConsumption.t)
    (monthly_totals : Dict.t string num)
    (day_max_consumption : num) (day_max_appliance : string)
    : result (Dict.t string num * num * string) :=
  match day_consumptions with
  | [] => inr (monthly_totals, day_max_consumption, day_max_appliance)
  | dc :: rest =>
      (app <- getitem (DailyConsumption.appliance_id dc) appliance_map ;;
       let appliance_name := Appliance.name app in
       total <- getitem appliance_name monthly_totals ;;
       let monthly_totals :=
         Dict.set appliance_name
                  (Py.add total (PyFloat (DailyConsumption.consumption_kwh dc)))
                  monthly_totals in
       if Py.gt (PyFloat (DailyConsumption.consumption_kwh dc)) day_max_consumption
       then monthly_day_loop appliance_map rest monthly_totals
                             (PyFloat (DailyConsumption.consumption_kwh dc))
                             appliance_name
       else monthly_day_loop appliance_map rest monthly_totals
                             day_max_consumption day_max_appliance)%result
  end.

(** [monthly_results], the loop [for date in dates:]. *)
Fixpoint monthly_dates_loop (appliance_map : Dict.t Z Appliance.t)
    (daily_consumptions : list DailyConsumption.t) (dates : list string)
    (monthly_totals : Dict.t string num)
    (daily_max_consumers : Dict.t string (string * num))
    : result (Dict.t string num * Dict.t string (string * num)) :=
  match dates with
  | [] => inr (monthly_totals, daily_max_consumers)
  | date :: rest =>
      let day_consumptions :=
        filter (fun dc => String.eqb (DailyConsumption.date dc) date)
               daily_consumptions in
      ('(monthly_totals, day_max_consumption, day_max_appliance) <-
         monthly_day_loop appliance_map day_consumptions monthly_totals (PyInt 0) "" ;;
       monthly_dates_loop appliance_map daily_consumptions rest monthly_totals
         (Dict.set date (day_max_appliance, day_max_consumption)
                   daily_max_consumers))%result
  end.

(** Lines 159 to 182 of [monthly_results]: the two dictionaries the
    aggregation fills, from the rows of the month and the appliances. *)
Definition monthly_aggregation (daily_consumptions : list DailyConsumption.t)
    (appliances : list Appliance.t)
    : result (Dict.t string num * Dict.t string (string * num)) :=
  let appliance_map := appliance_map_of appliances in
  let monthly_totals := zero_totals appliances in
  let dates := set_iter (map DailyConsumption.date daily_consumptions) in
  monthly_dates_loop appliance_map daily_consumptions dates monthly_totals Dict.empty.

(** [/monthly-results]. *)
Definition monthly_results (current_month : string) (req : request) (db : database)
    : outcome MonthlyResults.page * database :=
  let month := args_get "month" current_month req in
  let country := args_get "country" "USA" req in
  let daily_consumptions := month_rows month db in
  match monthly_aggregation daily_consumptions (appliance_table db) with
  | inl e => (Raise e, db)
  | inr (monthly_totals, daily_max_consumers) =>
      let total_monthly_kwh := Py.sum (Dict.values monthly_totals) in
      match Dict.get country COUNTRY_DATA with
      | None => (Raise KeyError, db)
      | Some tariff =>
          let cost_per_kwh := Tariff.cost_per_kwh tariff in
          let total_cost := Py.mul total_monthly_kwh (PyFloat cost_per_kwh) in
          let carbon_footprint := Py.mul total_monthly_kwh (PyFloat 0.5) in
          (Render (MonthlyResults.mk month country total_monthly_kwh total_cost
                                     carbon_footprint monthly_totals
                                     daily_max_consumers),
           db)
      end
  end.

(** [daily_analysis], the loop [for dc in day_consumptions:]. *)
Fixpoint analysis_day_loop (appliance_map : Dict.t Z Appliance.t)
    (day_consumptions : list DailyConsumption.t)
    (day_max_consumption : num) (day_max_appliance : string)
    : result (num * string) :=
  match day_consumptions with
  | [] => inr (day_max_consumption, day_max_appliance)
  | dc :: rest =>
      (app <- getitem (DailyConsumption.appliance_id dc) appliance_map ;;
       let appliance_name := Appliance.name app in
       if Py.gt (PyFloat (DailyConsumption.consumption_kwh dc)) day_max_consumption
       then analysis_day_loop appliance_map rest
                              (PyFloat (DailyConsumption.consumption_kwh dc))
                              appliance_name
       else analysis_day_loop appliance_map rest
                              day_max_consumption day_max_appliance)%result
  end.

(** [daily_analysis], the loop [for date in dates:]. *)
Fixpoint analysis_dates_loop (appliance_map : Dict.t Z Appliance.t)
    (daily_consumptions : list DailyConsumption.t) (dates : list string)
    (daily_max_consumers : Dict.t string (string * num))
    : result (Dict.t string (string * num)) :=
  match dates with
  | [] => inr daily_max_consumers
  | date :: rest =>
      let day_consumptions :=
        filter (fun dc => String.eqb (DailyConsumption.date dc) date)
               daily_consumptions in
      ('(day_max_consumption, day_max_appliance) <-
         analysis_day_loop appliance_map day_consumptions (PyInt 0) "" ;;
       analysis_dates_loop appliance_map daily_consumptions rest
         (Dict.set date (day_max_appliance, day_max_consumption)
                   daily_max_consumers))%result
  end.

(** [appliance_days[max_appliance] = appliance_days.get(max_appliance, 0) + 1]
    for every item of [daily_max_consumers]. *)
Definition count_days (daily_max_consumers : Dict.t string (string * num))
    : Dict.t string Z :=
  fold_left (fun appliance_days item =>
               let max_appliance := fst (snd item) in
               let seen := match Dict.get max_appliance appliance_days with
                           | Some n => n
                           | None => 0
                           end in
               Dict.set max_appliance (seen + 1) appliance_days)
            daily_max_consumers Dict.empty.

(** [max(items, key=lambda x: x[1]) if items else (None, 0)]: the first
    item whose count no other exceeds. *)
Definition most_frequent (appliance_days : Dict.t string Z) : option string * Z :=
  match appliance_days with
  | [] => (None, 0)
  | first :: others =>
      let best := fold_left (fun best item => if snd best <? snd item then item else best)
                            others first in
      (Some (fst best), snd best)
  end.

(** [/daily-analysis]. *)
Definition daily_analysis (current_month : string) (req : request) (db : database)
    : outcome DailyAnalysis.page * database :=
  let month := args_get "month" current_month req in
  let daily_consumptions := month_rows month db in
  let appliance_map := appliance_map_of (appliance_table db) in
  let dates := set_iter (map DailyConsumption.date daily_consumptions) in
  match analysis_dates_loop appliance_map daily_consumptions dates Dict.empty with
  | inl e => (Raise e, db)
  | inr daily_max_consumers =>
      let appliance_days := count_days daily_max_consumers in
      (Render (DailyAnalysis.mk month daily_max_consumers appliance_days
                                (most_frequent appliance_days)
                                (Z.of_nat (List.length daily_max_consumers))),
       db)
  end.

(** [/get-day-data/<date>]: the JSON object of that day's rows. *)
Definition get_day_data (date : string) (db : database)
    : Dict.t Z (float * float) :=
  fold_left (fun data entry =>
               Dict.set (DailyConsumption.appliance_id entry)
                        (DailyConsumption.hours_used entry,
                         DailyConsumption.consumption_kwh entry)
                        data)
            (filter (fun dc => String.eqb (DailyConsumption.date dc) date)
                    (daily_consumption_table db))
            Dict.empty.

(** The databases the application can be in: the fresh tables, and what a
    handler leaves behind after any request. *)
Inductive reachable : database -> Prop :=
| reach_create_all : reachable create_all
| reach_appliance_setup req db :
    reachable db -> reachable (snd (appliance_setup req db))
| reach_delete_appliance appliance_id db :
    reachable db -> reachable (snd (delete_appliance appliance_id db))
| reach_daily_input current_month req db :
    reachable db -> reachable (snd (daily_input current_month req db)).

End Handlers.

(** ** A reader of decimal literals, for the worked examples

    The properties below hold for every [py_float].  The examples need one
    that runs: this one reads [[+-]digits[.digits]], a fragment of what
    Python's [float] accepts, and rounds once (numerator and power of ten
    are exact below 2^53), so it agrees with Python on the literals the
    examples submit. *)

Fixpoint decimal_digits (s : string) (numerator denominator : Z)
    (after_point seen_digit : bool) : option (Z * Z) :=
  match s with
  | EmptyString => if seen_digit then Some (numerator, denominator) else None
  | String c s' =>
      if Ascii.eqb c "." then
        if after_point then None
        else decimal_digits s' numerator denominator true seen_digit
      else
        let n := nat_of_ascii c in
        if ((48 <=? n) && (n <=? 57))%nat then
          decimal_digits s' (10 * numerator + Z.of_nat (n - 48))
                         (if after_point then 10 * denominator else denominator)
                         after_point true
        else None
  end.

Definition decimal_float (s : string) : option float :=
  let '(negative, body) :=
    match s with
    | String "-" s' => (true, s')
    | String "+" s' => (false, s')
    | _ => (false, s)
    end in
  match decimal_digits body 0 1 false false with
  | None => None
  | Some (numerator, denominator) =>
      let v := (Py.float_of_Z numerator / Py.float_of_Z denominator)%float in
      Some (if negative then (- v)%float else v)
  end.

(** An iteration order for sets that runs: first occurrences dropped. *)
Definition first_seen_order (xs : list string) : list string := nodup string_dec xs.

(** ** The databases of the worked examples *)

Definition post (fields : Dict.t string string) : request := mkreq POST fields [].
Definition get_with (query : Dict.t string string) : request := mkreq GET [] query.

(** One appliance: "Fridge", 150 W. *)
Definition fridge_db : database :=
  snd (appliance_setup decimal_float
         (post [("name", "Fridge"); ("power_watts", "150")]) create_all).

(** The fridge ran 5 hours on 2024-06-01. *)
Definition june_db : database :=
  snd (daily_input decimal_float "2024-06"
         (post [("date", "2024-06-01"); ("hours_1", "5")]) fridge_db).

(** A second appliance, "AC" at 1000 W; on 2024-06-02 the fridge ran
    5 hours and the AC 2 hours. *)
Definition two_appliance_db : database :=
  snd (daily_input decimal_float "2024-06"
         (post [("date", "2024-06-02"); ("hours_1", "5"); ("hours_2", "2")])
         (snd (appliance_setup decimal_float
                 (post [("name", "AC"); ("power_watts", "1000")]) june_db))).

(** An appliance registered with 0 W ("Lamp") that ran 5 hours on
    2024-06-01. *)
Definition lamp_db : database :=
  snd (daily_input decimal_float "2024-06"
         (post [("date", "2024-06-01"); ("hours_1", "5")])
         (snd (appliance_setup decimal_float
                 (post [("name", "Lamp"); ("power_watts", "0")]) create_all))).

(** The daily-input form for 2024-06-01 with the fridge at 0 hours. *)
Definition zero_hours_form : request :=
  post [("date", "2024-06-01"); ("hours_1", "0")].

(** The daily-input form for 2024-06-01 with the fridge at 5 hours. *)
Definition five_hours_form : request :=
  post [("date", "2024-06-01"); ("hours_1", "5")].

(** The row that form leaves in [june_db]. *)
Definition june_row : DailyConsumption.t :=
  DailyConsumption.mk 1 "2024-06-01" 1 5 0.75.

(** The report for June 2024 priced for the USA, and for a country the
    tariff table does not have. *)
Definition june_usa : request :=
  get_with [("month", "2024-06"); ("country", "USA")].


(** The reports for July 2024, a month without rows. *)
Definition july_usa : request :=
  get_with [("month", "2024-07"); ("country", "USA")].

(** ** What the schema promises *)

(** The natural key of a consumption row. *)
Definition day_key (dc : DailyConsumption.t) : string * Z :=
  (DailyConsumption.date dc, DailyConsumption.appliance_id dc).

(** The constraints the tables are declared with: both [id] columns are
    primary keys, and [appliance_id] is a foreign key into [appliance]. *)
Record wf (db : database) : Prop := mkwf {
  wf_appliance_ids : NoDup (map Appliance.id (appliance_table db));
  wf_row_ids : NoDup (map DailyConsumption.id (daily_consumption_table db));
  wf_foreign_key :
    forall dc, In dc (daily_consumption_table db) ->
               In (DailyConsumption.appliance_id dc)
                  (map Appliance.id (appliance_table db))
}.

(** At most one row per (date, appliance_id) pair. *)
Definition one_per_day (rows : list DailyConsumption.t) : Prop :=
  NoDup (map day_key rows).

(** Every row's [consumption_kwh] is what its appliance's power and its own
    hours give. *)
Definition derived (db : database) : Prop :=
  forall dc appliance,
    In dc (daily_consumption_table db) ->
    In appliance (appliance_table db) ->
    Appliance.id appliance = DailyConsumption.appliance_id dc ->
    DailyConsumption.consumption_kwh dc
    = (Appliance.power_watts appliance * DailyConsumption.hours_used dc / 1000)%float.

(** What iterating a Python set promises: every element once, in some
    order. *)
Definition iterates_set (set_iter : list string -> list string) : Prop :=
  forall xs, NoDup (set_iter xs) /\ forall x, In x (set_iter xs) <-> In x xs.

(** What the inner loop of the daily maximum leaves for the rows of one day:
    the sentinel pair [("", 0)] when no row has a consumption above 0, and
    otherwise the name and consumption of a row that is above 0, that no row
    of the day exceeds, and that no earlier row of the day reaches. *)
Definition day_max_entry (appliances : list Appliance.t)
    (day : list DailyConsumption.t) (entry : string * num) : Prop :=
  ((forall dc, In dc day -> (0 <? DailyConsumption.consumption_kwh dc)%float = false)
   /\ entry = ("", PyInt 0))
  \/ (exists before dc after appliance,
        day = before ++ dc :: after
        /\ In appliance appliances
        /\ Appliance.id appliance = DailyConsumption.appliance_id dc
        /\ entry = (Appliance.name appliance,
                    PyFloat (DailyConsumption.consumption_kwh dc))
        /\ (0 <? DailyConsumption.consumption_kwh dc)%float = true
        /\ (forall x, In x before ->
                      (DailyConsumption.consumption_kwh dc
                       <=? DailyConsumption.consumption_kwh x)%float = false)
        /\ (forall x, In x after ->
                      (DailyConsumption.consumption_kwh dc
                       <? DailyConsumption.consumption_kwh x)%float = false)).

(** What every database the application builds satisfies. *)
Definition consistent (db : database) : Prop :=
  wf db /\ one_per_day (daily_consumption_table db) /\ derived db.

(** ** Further readings of the tables and pages *)

(** What identifies a consumption row: its primary key and its natural key. *)
Definition row_identity (dc : DailyConsumption.t) : Z * (string * Z) :=
  (DailyConsumption.id dc, day_key dc).

(** The pair the JSON of [get_day_data] holds for a row. *)
Definition day_data_entry (dc : DailyConsumption.t) : float * float :=
  (DailyConsumption.hours_used dc, DailyConsumption.consumption_kwh dc).

(** The number of dates of [daily_max_consumers] that name [n] as their
    maximum. *)
Definition days_won (n : string) (daily_max_consumers : Dict.t string (string * num))
    : Z :=
  Z.of_nat (List.length
              (filter (fun item => String.eqb (fst (snd item)) n) daily_max_consumers)).

(** The rows of a month in the order the aggregation visits them: date by
    date as the set of their dates is iterated, and in row order within a
    date. *)
Definition visited (set_iter : list string -> list string)
    (daily_consumptions : list DailyConsumption.t) : list DailyConsumption.t :=
  flat_map (fun date =>
              filter (fun dc => String.eqb (DailyConsumption.date dc) date)
                     daily_consumptions)
           (set_iter (map DailyConsumption.date daily_consumptions)).

(** Whether the appliance a row refers to bears the name [n]. *)
Definition row_named (appliances : list Appliance.t) (n : string)
    (dc : DailyConsumption.t) : bool :=
  match Dict.get (DailyConsumption.appliance_id dc) (appliance_map_of appliances) with
  | Some app => String.eqb (Appliance.name app) n
  | None => false
  end.

(** The consumptions of the rows of appliances named [n], in list order. *)
Definition named_consumptions (appliances : list Appliance.t) (n : string)
    (rows : list DailyConsumption.t) : list num :=
  map (fun dc => PyFloat (DailyConsumption.consumption_kwh dc))
      (filter (row_named appliances n) rows).

(** [s[:n]]: the first [n] characters of a string, or all of it. *)
Fixpoint py_slice_to (n : nat) (s : string) : string :=
  match n, s with
  | S n', String c s' => String c (py_slice_to n' s')
  | _, _ => EmptyString
  end.

(** One step of sorting strings in descending order. *)
Fixpoint insert_desc (x : string) (sorted : list string) : list string :=
  match sorted with
  | [] => [x]
  | y :: rest => if String.leb y x then x :: sorted else y :: insert_desc x rest
  end.

(** [sorted(xs, reverse=True)] on strings, which Python compares character
    by character.  The order is total and equal strings are the same string,
    so every sorting algorithm returns this list. *)
Definition sorted_reverse (xs : list string) : list string :=
  fold_right insert_desc [] xs.

(** Lines 189 and 190 of [monthly_results]: the distinct dates of the
    table, cut to their month, as a set, newest first. *)
Definition available_months (set_iter : list string -> list string) (db : database)
    : list string :=
  let dates :=
    nodup string_dec (map DailyConsumption.date (daily_consumption_table db)) in
  sorted_reverse (set_iter (map (py_slice_to 7) dates)).




(** No float column of the database holds a NaN. *)
Definition no_nan (db : database) : Prop :=
  (forall a, In a (appliance_table db) -> is_nan (Appliance.power_watts a) = false)
  /\ (forall dc, In dc (daily_consumption_table db) ->
                 is_nan (DailyConsumption.hours_used dc) = false
                 /\ is_nan (DailyConsumption.consumption_kwh dc) = false).

(** The daily-input form for 2024-06-01 with text that is no number for the
    fridge. *)
Definition bad_hours_form : request :=
  post [("date", "2024-06-01"); ("hours_1", "five")].

(** The daily-input form for 2024-06-03 with the fridge at 2 hours. *)
Definition third_of_june_form : request :=
  post [("date", "2024-06-03"); ("hours_1", "2")].

(** The form that registers a freezer of 200 W. *)
Definition freezer_form : request :=
  post [("name", "Freezer"); ("power_watts", "200")].

(** * Properties *)

(** ** The order of binary64 floats *)

Ltac sf_cases :=
  repeat match goal with
    | H : context [(?a ?= ?b)%Z] |- _ => destruct (Z.compare_spec a b)
    | |- context [(?a ?= ?b)%Z] => destruct (Z.compare_spec a b)
    | H : context [PosDef.Pos.compare_cont Eq ?a ?b] |- _ =>
        change (PosDef.Pos.compare_cont Eq a b) with (Pos.compare a b) in *;
        destruct (Pos.compare_spec a b)
    | |- context [PosDef.Pos.compare_cont Eq ?a ?b] =>
        change (PosDef.Pos.compare_cont Eq a b) with (Pos.compare a b) in *;
        destruct (Pos.compare_spec a b)
    end;
  simpl in *; try reflexivity; try discriminate; try lia.

Ltac sf_destruct x := destruct x as [[]|[]| |[] ? ?].

Lemma SFcompare_Lt_trans x y z :
  SFcompare x y = Some Lt -> SFcompare y z = Some Lt -> SFcompare x z = Some Lt.
Proof.
  sf_destruct x; sf_destruct y; sf_destruct z;
    simpl; intros Hxy Hyz; try discriminate; try reflexivity; sf_cases.
Qed.

Lemma SFcompare_Lt_Eq_trans x y z :
  SFcompare x y = Some Lt -> SFcompare y z = Some Eq -> SFcompare x z = Some Lt.
Proof.
  sf_destruct x; sf_destruct y; sf_destruct z;
    simpl; intros Hxy Hyz; try discriminate; try reflexivity; sf_cases.
Qed.

Lemma SFcompare_Lt_asym x y :
  SFcompare x y = Some Lt -> SFcompare y x = Some Gt.
Proof.
  sf_destruct x; sf_destruct y;
    simpl; intros Hxy; try discriminate; try reflexivity; sf_cases.
Qed.

Lemma ltb_trans (x y z : float) :
  (x <? y)%float = true -> (y <? z)%float = true -> (x <? z)%float = true.
Proof.
  rewrite !ltb_spec. unfold SFltb.
  destruct (SFcompare (Prim2SF x) (Prim2SF y)) as [[]|] eqn:Hxy; try discriminate.
  destruct (SFcompare (Prim2SF y) (Prim2SF z)) as [[]|] eqn:Hyz; try discriminate.
  intros _ _. now rewrite (SFcompare_Lt_trans _ _ _ Hxy Hyz).
Qed.

Lemma ltb_leb_trans (x y z : float) :
  (x <? y)%float = true -> (y <=? z)%float = true -> (x <? z)%float = true.
Proof.
  rewrite !ltb_spec, leb_spec. unfold SFltb, SFleb.
  destruct (SFcompare (Prim2SF x) (Prim2SF y)) as [[]|] eqn:Hxy; try discriminate.
  destruct (SFcompare (Prim2SF y) (Prim2SF z)) as [[]|] eqn:Hyz; try discriminate;
    intros _ _.
  - now rewrite (SFcompare_Lt_Eq_trans _ _ _ Hxy Hyz).
  - now rewrite (SFcompare_Lt_trans _ _ _ Hxy Hyz).
Qed.

Lemma ltb_not_leb (x y : float) :
  (x <? y)%float = true -> (y <=? x)%float = false.
Proof.
  rewrite ltb_spec, leb_spec. unfold SFltb, SFleb.
  destruct (SFcompare (Prim2SF x) (Prim2SF y)) as [[]|] eqn:Hxy; try discriminate.
  intros _. now rewrite (SFcompare_Lt_asym _ _ Hxy).
Qed.

Lemma ltb_asym (x y : float) :
  (x <? y)%float = true -> (y <? x)%float = false.
Proof.
  rewrite !ltb_spec. unfold SFltb.
  destruct (SFcompare (Prim2SF x) (Prim2SF y)) as [[]|] eqn:Hxy; try discriminate.
  intros _. now rewrite (SFcompare_Lt_asym _ _ Hxy).
Qed.

Lemma ltb_irrefl (x : float) : (x <? x)%float = false.
Proof.
  destruct (x <? x)%float eqn:E; [|reflexivity].
  pose proof (ltb_asym _ _ E). congruence.
Qed.

(** ** Lists and dictionaries *)

Lemma NoDup_map_inj {A B : Type} (f : A -> B) (l : list A) (x y : A) :
  NoDup (map f l) -> In x l -> In y l -> f x = f y -> x = y.
Proof.
  induction l as [|a l IH]; simpl; [tauto|].
  intros Hnd Hx Hy Hf. inversion Hnd as [|? ? Hnotin Hnd']; subst.
  destruct Hx as [->|Hx], Hy as [->|Hy]; auto.
  - exfalso. apply Hnotin. rewrite Hf. now apply in_map.
  - exfalso. apply Hnotin. rewrite <- Hf. now apply in_map.
Qed.

(** Filtering a table keeps a column free of duplicates. *)
Lemma NoDup_map_filter {Row Col : Type} (column : Row -> Col) (keep : Row -> bool) :
  forall table : list Row,
    NoDup (map column table) -> NoDup (map column (filter keep table)).
Proof.
  intros table. induction table as [|row table IH]; simpl; intros Hnd.
  - constructor.
  - inversion Hnd as [|? ? Hnotin Hnd']; subst.
    destruct (keep row); simpl; auto.
    constructor; auto.
    intros Hin. apply Hnotin.
    apply in_map_iff in Hin as (x & Hx & Hin). apply filter_In in Hin as [Hin _].
    rewrite <- Hx. now apply in_map.
Qed.

Lemma fold_max_upper (ids : list Z) (i : Z) :
  In i ids -> i <= fold_right Z.max 0 ids.
Proof.
  induction ids as [|j ids IH]; simpl; [tauto|].
  intros [->|Hin]; [lia|]. specialize (IH Hin). lia.
Qed.

Lemma new_rowid_fresh (ids : list Z) : ~ In (new_rowid ids) ids.
Proof.
  intros Hin. apply fold_max_upper in Hin. unfold new_rowid in Hin. lia.
Qed.

(** A [map] that changes only elements outside a filter, into elements
    outside it, is invisible through the filter. *)
Lemma filter_map_frame {A : Type} (p : A -> bool) (g : A -> A) (l : list A) :
  (forall x, In x l -> g x = x \/ (p x = false /\ p (g x) = false)) ->
  filter p (map g l) = filter p l.
Proof.
  induction l as [|a l IH]; simpl; intros Hg; [reflexivity|].
  rewrite IH by auto.
  destruct (Hg a (or_introl eq_refl)) as [->|[-> ->]]; reflexivity.
Qed.

Lemma filter_none {A : Type} (p : A -> bool) (l : list A) :
  (forall x, In x l -> p x = false) -> filter p l = [].
Proof.
  induction l as [|a l IH]; simpl; intros Hp; [reflexivity|].
  rewrite (Hp a (or_introl eq_refl)). auto.
Qed.

Section DictFacts.
Context {K V : Type} `{EqKey K}.

Lemma key_eqb_refl (k : K) : key_eqb k k = true.
Proof. destruct (key_eqb_spec k k); congruence. Qed.

Lemma key_eqb_neq {k k' : K} : k <> k' -> key_eqb k k' = false.
Proof. destruct (key_eqb_spec k k'); congruence. Qed.

Lemma get_set_same (k : K) (v : V) (d : Dict.t K V) :
  Dict.get k (Dict.set k v d) = Some v.
Proof.
  induction d as [|[k' v'] d IH]; simpl.
  - now rewrite key_eqb_refl.
  - destruct (key_eqb_spec k k') as [->|Hne]; simpl.
    + now rewrite key_eqb_refl.
    + now rewrite (key_eqb_neq Hne).
Qed.

Lemma get_set_other (k k' : K) (v : V) (d : Dict.t K V) :
  k' <> k -> Dict.get k' (Dict.set k v d) = Dict.get k' d.
Proof.
  intros Hne. induction d as [|[k0 v0] d IH]; simpl.
  - now rewrite (key_eqb_neq Hne).
  - destruct (key_eqb_spec k k0) as [->|Hne0]; simpl.
    + now rewrite (key_eqb_neq Hne).
    + now rewrite IH.
Qed.

Lemma get_None_iff (k : K) (d : Dict.t K V) :
  Dict.get k d = None <-> ~ In k (Dict.keys d).
Proof.
  induction d as [|[k' v'] d IH]; simpl; [tauto|].
  destruct (key_eqb_spec k k') as [->|Hne].
  - split; [discriminate|]. intros Hn. exfalso. auto.
  - rewrite IH. split; [intros Hn [Heq|Hin]; congruence|auto].
Qed.

Lemma get_Some_value (k : K) (v : V) (d : Dict.t K V) :
  Dict.get k d = Some v -> In v (Dict.values d).
Proof.
  induction d as [|[k' v'] d IH]; simpl; [discriminate|].
  destruct (key_eqb k k'); [intros [= ->]; auto|auto].
Qed.

Lemma keys_set (k k' : K) (v : V) (d : Dict.t K V) :
  In k' (Dict.keys (Dict.set k v d)) <-> k' = k \/ In k' (Dict.keys d).
Proof.
  induction d as [|[k0 v0] d IH]; simpl.
  - intuition congruence.
  - destruct (key_eqb_spec k k0) as [->|Hne0]; simpl.
    + intuition congruence.
    + rewrite IH. intuition congruence.
Qed.

End DictFacts.

(** ** Rows under update, insert and delete *)

Lemma NoDup_snoc {A : Type} (l : list A) (x : A) :
  NoDup l -> ~ In x l -> NoDup (l ++ [x]).
Proof.
  induction l as [|a l IH]; simpl; intros Hnd Hx.
  - constructor; [tauto|constructor].
  - inversion Hnd as [|? ? Hnotin Hnd']; subst. constructor.
    + rewrite in_app_iff. simpl. intros [Hin|[->|[]]]; tauto.
    + apply IH; tauto.
Qed.

Lemma same_day_appliance_iff (date_str : string) (i : Z) (dc : DailyConsumption.t) :
  same_day_appliance date_str i dc = true <-> day_key dc = (date_str, i).
Proof.
  unfold same_day_appliance, day_key.
  rewrite andb_true_iff, String.eqb_eq, Z.eqb_eq.
  split; [intros [-> ->]; reflexivity|intros [= -> ->]; auto].
Qed.

Lemma update_row_ids (dc' : DailyConsumption.t) (rows : list DailyConsumption.t) :
  map DailyConsumption.id (update_row dc' rows) = map DailyConsumption.id rows.
Proof.
  unfold update_row. rewrite map_map. apply map_ext. intros dc.
  destruct (Z.eqb_spec (DailyConsumption.id dc) (DailyConsumption.id dc')); congruence.
Qed.

Lemma update_row_absent (dc' : DailyConsumption.t) (rows : list DailyConsumption.t) :
  ~ In (DailyConsumption.id dc') (map DailyConsumption.id rows) ->
  update_row dc' rows = rows.
Proof.
  intros Hnotin. unfold update_row. rewrite <- (map_id rows) at 2.
  apply map_ext_in. intros dc Hin.
  destruct (Z.eqb_spec (DailyConsumption.id dc) (DailyConsumption.id dc')) as [Heq|]; auto.
  exfalso. apply Hnotin. rewrite <- Heq. now apply in_map.
Qed.

(** Under unique primary keys, an update touches the one row it names. *)
Lemma update_row_split (e e' : DailyConsumption.t) (rows : list DailyConsumption.t) :
  NoDup (map DailyConsumption.id rows) -> In e rows ->
  DailyConsumption.id e' = DailyConsumption.id e ->
  exists l1 l2, rows = l1 ++ e :: l2 /\ update_row e' rows = l1 ++ e' :: l2.
Proof.
  intros Hnd Hin Hid.
  destruct (in_split _ _ Hin) as (l1 & l2 & ->).
  exists l1, l2. split; [reflexivity|].
  rewrite map_app in Hnd. simpl in Hnd.
  pose proof (NoDup_remove_2 _ _ _ Hnd) as Hnotin. rewrite in_app_iff in Hnotin.
  unfold update_row. rewrite map_app. simpl.
  fold (update_row e' l1). fold (update_row e' l2).
  rewrite !update_row_absent by (rewrite Hid; tauto).
  rewrite Hid, Z.eqb_refl. reflexivity.
Qed.

Lemma in_update_row (dc dc' : DailyConsumption.t) (rows : list DailyConsumption.t) :
  In dc (update_row dc' rows) -> dc = dc' \/ In dc rows.
Proof.
  unfold update_row. rewrite in_map_iff. intros (x & Hx & Hin).
  destruct (DailyConsumption.id x =? DailyConsumption.id dc'); subst; auto.
Qed.

(** Under unique primary keys, the cascade deletes the rows of the
    appliance and nothing else. *)
Lemma delete_rows_cascade (i : Z) (rows : list DailyConsumption.t) :
  NoDup (map DailyConsumption.id rows) ->
  delete_rows (filter (fun dc => DailyConsumption.appliance_id dc =? i) rows) rows
  = filter (fun dc => negb (DailyConsumption.appliance_id dc =? i)) rows.
Proof.
  intros Hnd. unfold delete_rows. apply filter_ext_in. intros dc Hin. f_equal.
  destruct (DailyConsumption.appliance_id dc =? i) eqn:Hown.
  - apply existsb_exists. exists dc. rewrite filter_In, Z.eqb_refl. auto.
  - destruct (existsb _ _) eqn:Hex; [|reflexivity].
    apply existsb_exists in Hex as (c & Hc & Hid).
    apply filter_In in Hc as [Hc Hcown]. apply Z.eqb_eq in Hid.
    rewrite (NoDup_map_inj _ _ _ _ Hnd Hc Hin Hid) in Hcown. congruence.
Qed.

(** Name the two halves of the table around the row an update rewrites. *)
Ltac split_update existing Hnd Hin :=
  match goal with
  | |- context [update_row ?e' ?rows] =>
      let l1 := fresh "l1" in
      let l2 := fresh "l2" in
      let Hupd := fresh "Hupd" in
      destruct (update_row_split existing e' rows Hnd Hin eq_refl)
        as (l1 & l2 & Hrows & Hupd);
      rewrite Hupd
  end.

Section Upsert.
Variable date_str : string.
Variable appliance : Appliance.t.
Variable hours_used : float.
Variable rows : list DailyConsumption.t.

Let rows' := upsert date_str appliance hours_used rows.

Lemma upsert_ids :
  NoDup (map DailyConsumption.id rows) -> NoDup (map DailyConsumption.id rows').
Proof.
  intros Hnd. subst rows'. unfold upsert.
  destruct (find _ rows) as [existing|].
  - now rewrite update_row_ids.
  - rewrite map_app. simpl. apply NoDup_snoc; auto. apply new_rowid_fresh.
Qed.

Lemma upsert_keys :
  NoDup (map DailyConsumption.id rows) -> one_per_day rows -> one_per_day rows'.
Proof.
  intros Hnd Hkeys. subst rows'. unfold upsert, one_per_day in *.
  destruct (find _ rows) as [existing|] eqn:Hfind.
  - apply find_some in Hfind as [Hin _].
    split_update existing Hnd Hin.
    rewrite Hrows in Hkeys. rewrite map_app in *. exact Hkeys.
  - rewrite map_app. simpl. apply NoDup_snoc; auto.
    intros Hin. apply in_map_iff in Hin as (dc & Hkey & Hin).
    apply (find_none _ _ Hfind) in Hin.
    apply same_day_appliance_iff in Hkey. simpl in Hkey. congruence.
Qed.

Lemma upsert_appliance_ids (dc : DailyConsumption.t) :
  In dc rows' ->
  In dc rows
  \/ (DailyConsumption.appliance_id dc = Appliance.id appliance
      /\ DailyConsumption.hours_used dc = hours_used
      /\ DailyConsumption.consumption_kwh dc
         = (Appliance.power_watts appliance * hours_used / 1000)%float).
Proof.
  subst rows'. unfold upsert.
  destruct (find _ rows) as [existing|] eqn:Hfind.
  - intros Hin. apply in_update_row in Hin as [->|Hin]; auto.
    right. simpl. apply find_some in Hfind as [_ Hkey].
    apply same_day_appliance_iff in Hkey. injection Hkey as _ ->. auto.
  - rewrite in_app_iff. simpl. intros [Hin|[<-|[]]]; auto.
Qed.

(** The upsert of one appliance leaves the rows of every other one alone. *)
Lemma upsert_frame (i : Z) :
  NoDup (map DailyConsumption.id rows) ->
  Appliance.id appliance <> i ->
  filter (fun dc => DailyConsumption.appliance_id dc =? i) rows'
  = filter (fun dc => DailyConsumption.appliance_id dc =? i) rows.
Proof.
  intros Hnd Hne. subst rows'. unfold upsert.
  destruct (find _ rows) as [existing|] eqn:Hfind.
  - apply find_some in Hfind as [Hin Hkey].
    apply same_day_appliance_iff in Hkey. injection Hkey as _ Hown.
    apply filter_map_frame. intros dc Hdc. simpl.
    destruct (Z.eqb_spec (DailyConsumption.id dc) (DailyConsumption.id existing))
      as [Hid|]; auto.
    right. rewrite (NoDup_map_inj _ _ _ _ Hnd Hdc Hin Hid). simpl.
    rewrite Hown. split; now apply Z.eqb_neq.
  - rewrite filter_app. simpl.
    rewrite (proj2 (Z.eqb_neq _ _) Hne). now rewrite app_nil_r.
Qed.

(** After the upsert there is exactly one row for the day and the
    appliance, and it holds the submitted hours. *)
Lemma upsert_logged :
  NoDup (map DailyConsumption.id rows) -> one_per_day rows ->
  exists rowid,
    filter (same_day_appliance date_str (Appliance.id appliance)) rows'
    = [DailyConsumption.mk rowid date_str (Appliance.id appliance) hours_used
         (Appliance.power_watts appliance * hours_used / 1000)%float].
Proof.
  intros Hnd Hkeys. subst rows'. unfold upsert.
  destruct (find _ rows) as [existing|] eqn:Hfind.
  - apply find_some in Hfind as [Hin Hkey].
    exists (DailyConsumption.id existing).
    split_update existing Hnd Hin.
    pose proof Hkey as Hkey'. apply same_day_appliance_iff in Hkey'.
    injection Hkey' as Hdate Hown. rewrite Hdate, Hown.
    unfold one_per_day in Hkeys. rewrite Hrows, map_app in Hkeys. simpl in Hkeys.
    pose proof (NoDup_remove_2 _ _ _ Hkeys) as Hnotin.
    rewrite in_app_iff in Hnotin.
    assert (Hout : forall l, ~ In (day_key existing) (map day_key l) ->
              filter (same_day_appliance date_str (Appliance.id appliance)) l = []).
    { intros l Hl. apply filter_none. intros dc Hdc.
      destruct (same_day_appliance _ _ dc) eqn:E; [|reflexivity].
      exfalso. apply Hl. apply same_day_appliance_iff in E.
      apply in_map_iff. exists dc. split; [|assumption].
      rewrite E. unfold day_key. now rewrite Hdate, Hown. }
    rewrite filter_app. simpl.
    rewrite !Hout by tauto.
    replace (same_day_appliance _ _ _) with true; [reflexivity|].
    symmetry. now apply same_day_appliance_iff.
  - exists (new_rowid (map DailyConsumption.id rows)).
    rewrite filter_app, (filter_none _ _ (find_none _ _ Hfind)). simpl.
    replace (same_day_appliance _ _ _) with true; [reflexivity|].
    symmetry. now apply same_day_appliance_iff.
Qed.

End Upsert.

(** ** The handlers keep the database consistent *)

Lemma flush_inr (rows rows' : list DailyConsumption.t) :
  flush rows = inr rows' -> rows' = rows.
Proof.
  unfold flush. destruct (existsb _ rows); [discriminate|]. now intros [= <-].
Qed.

(** Go past a flush that the run [Hrun] survived. *)
Ltac flushed Hrun :=
  match type of Hrun with
  | context [flush ?rows] =>
      let Hflush := fresh "Hflush" in
      let e := fresh "e" in
      let rows0 := fresh "rows0" in
      destruct (flush rows) as [e|rows0] eqn:Hflush; cbn [bind] in Hrun;
      [discriminate Hrun|];
      pose proof (flush_inr _ _ Hflush); subst rows0
  end.

Lemma consistent_create_all : consistent create_all.
Proof.
  split; [split|split]; simpl.
  - constructor.
  - constructor.
  - intros dc [].
  - constructor.
  - intros dc a [].
Qed.

Lemma upsert_consistent (date_str : string) (appliance : Appliance.t)
    (hours_used : float) (appliances : list Appliance.t)
    (rows : list DailyConsumption.t) :
  In appliance appliances ->
  consistent (mkdb appliances rows) ->
  consistent (mkdb appliances (upsert date_str appliance hours_used rows)).
Proof.
  intros Hin ([Happs Hrows Hfk] & Hkeys & Hder). simpl in *.
  repeat split; simpl.
  - assumption.
  - now apply upsert_ids.
  - intros dc Hdc. apply upsert_appliance_ids in Hdc as [Hdc|(-> & _)]; auto.
    now apply in_map.
  - now apply upsert_keys.
  - intros dc a Hdc Ha Hid. simpl in *.
    apply upsert_appliance_ids in Hdc as [Hdc|(Hown & -> & ->)]; [now apply Hder|].
    rewrite Hown in Hid.
    now rewrite (NoDup_map_inj _ _ _ _ Happs Ha Hin Hid).
Qed.

Section Invariants.

Variable py_float : string -> option float.

Lemma daily_input_loop_consistent (req : request) (date_str : string)
    (appliances : list Appliance.t) :
  forall (todo : list Appliance.t) (rows rows' : list DailyConsumption.t),
    incl todo appliances ->
    consistent (mkdb appliances rows) ->
    daily_input_loop py_float req date_str todo rows = inr rows' ->
    consistent (mkdb appliances rows').
Proof.
  induction todo as [|appliance todo IH]; simpl; intros rows rows' Hincl Hok Hrun.
  - now injection Hrun as <-.
  - destruct (hours_field py_float req appliance) as [e|hours_used]; simpl in Hrun;
      [discriminate|].
    assert (Hin : In appliance appliances) by (apply Hincl; now left).
    assert (Hincl' : incl todo appliances) by (intros a Ha; apply Hincl; now right).
    destruct (Py.gt _ _).
    + flushed Hrun.
      apply (IH _ _ Hincl' (upsert_consistent _ _ _ _ _ Hin Hok) Hrun).
    + apply (IH _ _ Hincl' Hok Hrun).
Qed.

Lemma appliance_setup_consistent (req : request) (db : database) :
  consistent db -> consistent (snd (appliance_setup py_float req db)).
Proof.
  intros Hok. unfold appliance_setup.
  destruct (method req); [exact Hok|].
  destruct (Dict.get "name" (form req)) as [name|]; [|exact Hok].
  destruct (Dict.get "power_watts" (form req)) as [s|]; [|exact Hok].
  destruct (py_float s) as [power_watts|]; [|exact Hok].
  destruct (is_nan power_watts); [exact Hok|].
  destruct Hok as ([Happs Hrows Hfk] & Hkeys & Hder). simpl.
  pose proof (new_rowid_fresh (map Appliance.id (appliance_table db))) as Hfresh.
  repeat split; simpl.
  - rewrite map_app. simpl. now apply NoDup_snoc.
  - assumption.
  - intros dc Hdc. rewrite map_app, in_app_iff. left. now apply Hfk.
  - assumption.
  - intros dc a Hdc Ha Hid. simpl in *.
    apply in_app_iff in Ha as [Ha|[<-|[]]]; [now apply Hder|].
    simpl in Hid. exfalso. apply Hfresh. rewrite Hid. now apply Hfk.
Qed.

Lemma delete_appliance_consistent (appliance_id : Z) (db : database) :
  consistent db -> consistent (snd (delete_appliance appliance_id db)).
Proof.
  intros Hok. unfold delete_appliance.
  destruct (appliance_get appliance_id db) as [appliance|];
    [|now destruct (2 ^ 63 <=? appliance_id)].
  destruct Hok as ([Happs Hrows Hfk] & Hkeys & Hder).
  unfold session_delete. simpl. rewrite delete_rows_cascade by assumption.
  repeat split; simpl.
  - now apply NoDup_map_filter.
  - now apply NoDup_map_filter.
  - intros dc Hdc. apply filter_In in Hdc as [Hdc Hown].
    specialize (Hfk dc Hdc). apply in_map_iff in Hfk as (a & Hid & Ha).
    apply in_map_iff. exists a. split; [assumption|].
    apply filter_In. split; [assumption|]. now rewrite Hid.
  - now apply NoDup_map_filter.
  - intros dc a Hdc Ha Hid. simpl in *.
    apply filter_In in Hdc as [Hdc _]. apply filter_In in Ha as [Ha _].
    now apply Hder.
Qed.

Lemma daily_input_consistent (current_month : string) (req : request)
    (db : database) :
  consistent db -> consistent (snd (daily_input py_float current_month req db)).
Proof.
  intros Hok. unfold daily_input.
  destruct (appliance_table db) as [|a0 apps] eqn:Happs; [exact Hok|].
  destruct (method req); [exact Hok|].
  destruct (Dict.get "date" (form req)) as [date_str|]; [|exact Hok].
  destruct (daily_input_loop _ _ _ _ _) as [e|rows] eqn:Hrun; cbn [bind];
    [exact Hok|].
  destruct (flush rows) as [e|rows0] eqn:Hflush; [exact Hok|].
  apply flush_inr in Hflush as ->.
  simpl. eapply daily_input_loop_consistent; [apply incl_refl| |exact Hrun].
  rewrite <- Happs. now destruct db.
Qed.

Lemma reachable_consistent (db : database) :
  reachable py_float db -> consistent db.
Proof.
  induction 1.
  - apply consistent_create_all.
  - now apply appliance_setup_consistent.
  - now apply delete_appliance_consistent.
  - now apply daily_input_consistent.
Qed.

End Invariants.

(** ** One submission of the daily-input form *)

Lemma filter_same_day (date_str : string) (i : Z) (rows : list DailyConsumption.t) :
  filter (same_day_appliance date_str i) rows
  = filter (fun dc => String.eqb (DailyConsumption.date dc) date_str)
           (filter (fun dc => DailyConsumption.appliance_id dc =? i) rows).
Proof.
  induction rows as [|dc rows IH]; simpl; [reflexivity|].
  unfold same_day_appliance at 1.
  destruct (DailyConsumption.appliance_id dc =? i); simpl;
    destruct (String.eqb (DailyConsumption.date dc) date_str); simpl;
    now rewrite IH.
Qed.

Lemma find_filter_head {A : Type} (p : A -> bool) (l : list A) (x : A) :
  filter p l = [x] -> find p l = Some x.
Proof.
  induction l as [|a l IH]; simpl; [discriminate|].
  destruct (p a); [now intros [= ->]|exact IH].
Qed.

Section Submission.

Variable py_float : string -> option float.
Variable req : request.
Variable date_str : string.
Variable appliances : list Appliance.t.
Hypothesis appliance_ids : NoDup (map Appliance.id appliances).

(** The row a positive entry of the form leaves behind. *)
Let logged (appliance : Appliance.t) (hours_used : float)
    (rows : list DailyConsumption.t) : Prop :=
  exists rowid,
    filter (same_day_appliance date_str (Appliance.id appliance)) rows
    = [DailyConsumption.mk rowid date_str (Appliance.id appliance) hours_used
         (Appliance.power_watts appliance * hours_used / 1000)%float].

(** An appliance the loop skips keeps its rows, whatever the loop does for
    the others. *)
Lemma daily_input_loop_frame (appliance : Appliance.t) (hours_used : float) :
  In appliance appliances ->
  hours_field py_float req appliance = inr hours_used ->
  Py.gt (PyFloat hours_used) (PyInt 0) = false ->
  forall (todo : list Appliance.t) (rows rows' : list DailyConsumption.t),
    incl todo appliances ->
    NoDup (map DailyConsumption.id rows) ->
    daily_input_loop py_float req date_str todo rows = inr rows' ->
    filter (fun dc => DailyConsumption.appliance_id dc =? Appliance.id appliance) rows'
    = filter (fun dc => DailyConsumption.appliance_id dc =? Appliance.id appliance) rows.
Proof.
  intros Hin Hfield Hskip.
  induction todo as [|b todo IH]; simpl; intros rows rows' Hincl Hnd Hrun.
  - now injection Hrun as <-.
  - assert (Hb : In b appliances) by (apply Hincl; now left).
    assert (Hincl' : incl todo appliances) by (intros a Ha; apply Hincl; now right).
    destruct (hours_field py_float req b) as [e|hb] eqn:Hfb; simpl in Hrun;
      [discriminate|].
    destruct (Py.gt (PyFloat hb) (PyInt 0)) eqn:Hgt.
    + flushed Hrun.
      rewrite (IH _ _ Hincl' (upsert_ids _ _ _ _ Hnd) Hrun).
      apply upsert_frame; [assumption|].
      intros Hid.
      rewrite (NoDup_map_inj _ _ _ _ appliance_ids Hb Hin Hid) in Hfb.
      congruence.
    + apply (IH _ _ Hincl' Hnd Hrun).
Qed.

(** An appliance with a positive entry ends with exactly one row for the
    day, holding that entry. *)
Lemma daily_input_loop_logged (appliance : Appliance.t) (hours_used : float) :
  In appliance appliances ->
  hours_field py_float req appliance = inr hours_used ->
  Py.gt (PyFloat hours_used) (PyInt 0) = true ->
  forall (todo : list Appliance.t) (rows rows' : list DailyConsumption.t),
    incl todo appliances ->
    NoDup (map DailyConsumption.id rows) -> one_per_day rows ->
    daily_input_loop py_float req date_str todo rows = inr rows' ->
    In appliance todo \/ logged appliance hours_used rows ->
    logged appliance hours_used rows'.
Proof.
  intros Hin Hfield Hpos.
  induction todo as [|b todo IH]; simpl; intros rows rows' Hincl Hnd Hkeys Hrun Hcase.
  - injection Hrun as <-. destruct Hcase as [[]|Hlogged]. exact Hlogged.
  - assert (Hb : In b appliances) by (apply Hincl; now left).
    assert (Hincl' : incl todo appliances) by (intros a Ha; apply Hincl; now right).
    destruct (hours_field py_float req b) as [e|hb] eqn:Hfb; simpl in Hrun;
      [discriminate|].
    destruct (Z.eq_dec (Appliance.id b) (Appliance.id appliance)) as [Hid|Hid].
    + rewrite (NoDup_map_inj _ _ _ _ appliance_ids Hb Hin Hid) in *.
      assert (hb = hours_used) as -> by congruence.
      rewrite Hpos in Hrun. flushed Hrun.
      apply (IH _ _ Hincl' (upsert_ids _ _ _ _ Hnd)
                (upsert_keys _ _ _ _ Hnd Hkeys) Hrun).
      right. now apply upsert_logged.
    + assert (Hcase' : In appliance todo \/ logged appliance hours_used rows).
      { destruct Hcase as [[->|Hin']|Hlogged]; auto. contradiction. }
      destruct (Py.gt (PyFloat hb) (PyInt 0)).
      * flushed Hrun.
        apply (IH _ _ Hincl' (upsert_ids _ _ _ _ Hnd)
                  (upsert_keys _ _ _ _ Hnd Hkeys) Hrun).
        destruct Hcase' as [Hin'|(rowid & Hlogged)]; [now left|right].
        exists rowid. rewrite filter_same_day, upsert_frame by assumption.
        now rewrite <- filter_same_day.
      * apply (IH _ _ Hincl' Hnd Hkeys Hrun Hcase').
Qed.

(** A run of the loop that returns has read the hours of every appliance
    on its way. *)
Lemma daily_input_loop_fields :
  forall (todo : list Appliance.t) (rows rows' : list DailyConsumption.t),
    daily_input_loop py_float req date_str todo rows = inr rows' ->
    forall b, In b todo -> exists hb, hours_field py_float req b = inr hb.
Proof.
  induction todo as [|a todo IH]; simpl; intros rows rows' Hrun b Hb; [contradiction|].
  destruct (hours_field py_float req a) as [e|ha] eqn:Hfa; cbn [bind] in Hrun;
    [discriminate|].
  destruct Hb as [<-|Hb]; [now exists ha|].
  destruct (Py.gt (PyFloat ha) (PyInt 0)); [flushed Hrun|]; eapply IH; eauto.
Qed.

(** Writing an entry over the row that already holds it changes nothing. *)
Lemma upsert_again (appliance : Appliance.t) (hours_used : float)
    (rows : list DailyConsumption.t) :
  NoDup (map DailyConsumption.id rows) ->
  logged appliance hours_used rows ->
  upsert date_str appliance hours_used rows = rows.
Proof.
  intros Hnd (rowid & Hlogged). unfold upsert.
  rewrite (find_filter_head _ _ _ Hlogged). simpl.
  assert (Hin : In (DailyConsumption.mk rowid date_str (Appliance.id appliance)
                      hours_used
                      (Appliance.power_watts appliance * hours_used / 1000)%float)
                   rows).
  { eapply (proj1 (filter_In _ _ _)). rewrite Hlogged. now left. }
  split_update (DailyConsumption.mk rowid date_str (Appliance.id appliance)
                  hours_used
                  (Appliance.power_watts appliance * hours_used / 1000)%float)
               Hnd Hin.
  now symmetry.
Qed.

(** A second run of the loop over rows that passed the flush and hold
    every positive entry of the form returns them as they are. *)
Lemma daily_input_loop_again (rows : list DailyConsumption.t) :
  NoDup (map DailyConsumption.id rows) ->
  flush rows = inr rows ->
  forall todo : list Appliance.t,
    (forall b, In b todo ->
       exists hb, hours_field py_float req b = inr hb
                  /\ (Py.gt (PyFloat hb) (PyInt 0) = true -> logged b hb rows)) ->
    daily_input_loop py_float req date_str todo rows = inr rows.
Proof.
  intros Hnd Hflush. induction todo as [|b todo IH]; simpl; intros Hall; [reflexivity|].
  destruct (Hall b (or_introl eq_refl)) as (hb & -> & Hlogged). cbn [bind].
  assert (Hrest : daily_input_loop py_float req date_str todo rows = inr rows)
    by (apply IH; intros a Ha; apply Hall; now right).
  destruct (Py.gt (PyFloat hb) (PyInt 0)); [|exact Hrest].
  rewrite Hflush. cbn [bind]. now rewrite upsert_again by auto.
Qed.

End Submission.

(** ** The daily-input handler *)

Ltac reach :=
  repeat first [ apply reach_create_all
               | apply reach_daily_input
               | apply reach_appliance_setup
               | apply reach_delete_appliance ].

Lemma reachable_fridge_db : reachable decimal_float fridge_db.
Proof. unfold fridge_db. reach. Qed.

Lemma reachable_june_db : reachable decimal_float june_db.
Proof. unfold june_db, fridge_db. reach. Qed.

Lemma reachable_two_appliance_db : reachable decimal_float two_appliance_db.
Proof. unfold two_appliance_db, june_db, fridge_db. reach. Qed.

Lemma reachable_lamp_db : reachable decimal_float lamp_db.
Proof. unfold lamp_db. reach. Qed.

(** A POST that ends in the redirect to [daily_input] ran the loop to its
    end and committed its rows. *)
Lemma daily_input_committed (py_float : string -> option float)
    (current_month : string) (req : request) (db : database) (date_str : string) :
  method req = POST ->
  Dict.get "date" (form req) = Some date_str ->
  fst (daily_input py_float current_month req db) = Redirect "daily_input" ->
  exists rows',
    daily_input_loop py_float req date_str (appliance_table db)
                     (daily_consumption_table db) = inr rows'
    /\ flush rows' = inr rows'
    /\ daily_input py_float current_month req db
       = (Redirect "daily_input", mkdb (appliance_table db) rows').
Proof.
  intros Hpost Hdate. unfold daily_input. rewrite Hpost, Hdate.
  destruct (daily_input_loop py_float req date_str (appliance_table db)
              (daily_consumption_table db)) as [e|rows'] eqn:Hrun; cbn [bind].
  - destruct (appliance_table db); cbn [fst]; discriminate.
  - destruct (flush rows') as [e|rows0] eqn:Hflush.
    + destruct (appliance_table db); cbn [fst]; discriminate.
    + pose proof (flush_inr _ _ Hflush). subst rows0.
      destruct (appliance_table db); cbn [fst]; [discriminate|].
      intros _. now exists rows'.
Qed.

Lemma daily_input_logged (py_float : string -> option float)
    (current_month : string) (req : request) (db : database) (date_str : string)
    (appliance : Appliance.t) (hours_used : float) :
  consistent db ->
  method req = POST ->
  Dict.get "date" (form req) = Some date_str ->
  In appliance (appliance_table db) ->
  hours_field py_float req appliance = inr hours_used ->
  Py.gt (PyFloat hours_used) (PyInt 0) = true ->
  fst (daily_input py_float current_month req db) = Redirect "daily_input" ->
  exists rowid,
    filter (same_day_appliance date_str (Appliance.id appliance))
           (daily_consumption_table (snd (daily_input py_float current_month req db)))
    = [DailyConsumption.mk rowid date_str (Appliance.id appliance) hours_used
         (Appliance.power_watts appliance * hours_used / 1000)%float].
Proof.
  intros ([Happs Hrows _] & Hkeys & _) Hpost Hdate Hin Hfield Hpos Hok.
  destruct (daily_input_committed _ _ _ _ _ Hpost Hdate Hok)
    as (rows' & Hrun & _ & ->).
  simpl.
  eapply (daily_input_loop_logged py_float req date_str (appliance_table db) Happs
            appliance hours_used Hin Hfield Hpos (appliance_table db));
    eauto using incl_refl.
Qed.

(** C1: in every database the application can reach, each stored
    DailyConsumption row has an appliance, and its consumption_kwh is that
    appliance's power_watts times the row's hours_used, divided by 1000 (in
    binary64 arithmetic, as the handler computes it); and a daily-input
    submission that logs H > 0 hours for an appliance of power P on date D
    leaves, for that date and appliance, the row with hours_used = H and
    consumption_kwh = P * H / 1000.  No handler writes consumption_kwh in any
    other way. *)
Theorem consumption_kwh_derived (py_float : string -> option float) (db : database) :
  reachable py_float db ->
  (forall dc,
     In dc (daily_consumption_table db) ->
     exists appliance,
       In appliance (appliance_table db)
       /\ Appliance.id appliance = DailyConsumption.appliance_id dc
       /\ DailyConsumption.consumption_kwh dc
          = (Appliance.power_watts appliance * DailyConsumption.hours_used dc / 1000)%float)
  /\ (forall current_month req date_str appliance hours_used,
        method req = POST ->
        Dict.get "date" (form req) = Some date_str ->
        In appliance (appliance_table db) ->
        hours_field py_float req appliance = inr hours_used ->
        Py.gt (PyFloat hours_used) (PyInt 0) = true ->
        fst (daily_input py_float current_month req db) = Redirect "daily_input" ->
        exists rowid,
          filter (same_day_appliance date_str (Appliance.id appliance))
                 (daily_consumption_table
                    (snd (daily_input py_float current_month req db)))
          = [DailyConsumption.mk rowid date_str (Appliance.id appliance) hours_used
               (Appliance.power_watts appliance * hours_used / 1000)%float]).
Proof.
  intros Hreach. pose proof (reachable_consistent _ _ Hreach) as Hok. split.
  - destruct Hok as ([_ _ Hfk] & _ & Hder). intros dc Hdc.
    destruct (proj1 (in_map_iff _ _ _) (Hfk dc Hdc)) as (appliance & Hid & Hin).
    exists appliance. auto.
  - intros. now apply daily_input_logged.
Qed.

Lemma consumption_kwh_derived_witness :
  reachable decimal_float june_db
  /\ In june_row (daily_consumption_table june_db)
  /\ exists appliance,
       In appliance (appliance_table june_db)
       /\ Appliance.id appliance = DailyConsumption.appliance_id june_row
       /\ DailyConsumption.consumption_kwh june_row
          = (Appliance.power_watts appliance
             * DailyConsumption.hours_used june_row / 1000)%float.
Proof.
  split; [exact reachable_june_db|].
  assert (Hin : In june_row (daily_consumption_table june_db))
    by (vm_compute; left; reflexivity).
  split; [exact Hin|].
  exact (proj1 (consumption_kwh_derived decimal_float june_db reachable_june_db)
               june_row Hin).
Defined.

(** An appliance whose hours are not above 0 keeps all its rows through a
    request to /daily-input, accepted or not. *)
Lemma daily_input_frame (py_float : string -> option float)
    (current_month : string) (req : request) (db : database)
    (appliance : Appliance.t) (hours_used : float) :
  wf db ->
  In appliance (appliance_table db) ->
  hours_field py_float req appliance = inr hours_used ->
  Py.gt (PyFloat hours_used) (PyInt 0) = false ->
  filter (fun dc => DailyConsumption.appliance_id dc =? Appliance.id appliance)
         (daily_consumption_table (snd (daily_input py_float current_month req db)))
  = filter (fun dc => DailyConsumption.appliance_id dc =? Appliance.id appliance)
           (daily_consumption_table db).
Proof.
  intros [Happs Hrows _] Hin Hfield Hgt.
  unfold daily_input.
  destruct (appliance_table db) as [|a0 apps] eqn:Htable; [reflexivity|].
  destruct (method req); [reflexivity|].
  destruct (Dict.get "date" (form req)) as [date_str|]; [|reflexivity].
  destruct (daily_input_loop _ _ _ _ _) as [e|rows'] eqn:Hrun; cbn [bind];
    [reflexivity|].
  destruct (flush rows') as [e|rows0] eqn:Hflush; [reflexivity|].
  apply flush_inr in Hflush as ->.
  simpl. rewrite <- Htable in *.
  eapply (daily_input_loop_frame py_float req date_str (appliance_table db) Happs
            appliance hours_used Hin Hfield Hgt); eauto using incl_refl.
Qed.

(** C2, as the code has it: in every reachable database at most one row
    exists per (date, appliance_id) pair; when a daily-input form that
    carries a positive hours value H for an appliance is submitted twice and
    accepted, the second submission is accepted too, changes nothing the
    first one left, and the database holds exactly one row for that date and
    appliance, with hours_used = H and consumption_kwh = P * H / 1000; and a
    submitted hours value that is not greater than 0 stores no record: the
    rows of that appliance are after the request what they were before. *)
Theorem daily_input_twice (py_float : string -> option float) (db : database) :
  reachable py_float db ->
  one_per_day (daily_consumption_table db)
  /\ (forall month1 month2 req date_str appliance hours_used,
        method req = POST ->
        Dict.get "date" (form req) = Some date_str ->
        In appliance (appliance_table db) ->
        hours_field py_float req appliance = inr hours_used ->
        Py.gt (PyFloat hours_used) (PyInt 0) = true ->
        fst (daily_input py_float month1 req db) = Redirect "daily_input" ->
        let once := snd (daily_input py_float month1 req db) in
        let twice := daily_input py_float month2 req once in
        fst twice = Redirect "daily_input"
        /\ snd twice = once
        /\ exists rowid,
             filter (same_day_appliance date_str (Appliance.id appliance))
                    (daily_consumption_table (snd twice))
             = [DailyConsumption.mk rowid date_str (Appliance.id appliance)
                  hours_used
                  (Appliance.power_watts appliance * hours_used / 1000)%float])
  /\ (forall month req appliance hours_used,
        In appliance (appliance_table db) ->
        hours_field py_float req appliance = inr hours_used ->
        Py.gt (PyFloat hours_used) (PyInt 0) = false ->
        filter (fun dc => DailyConsumption.appliance_id dc =? Appliance.id appliance)
               (daily_consumption_table (snd (daily_input py_float month req db)))
        = filter (fun dc => DailyConsumption.appliance_id dc =? Appliance.id appliance)
                 (daily_consumption_table db)).
Proof.
  intros Hreach. pose proof (reachable_consistent _ _ Hreach) as Hok.
  split; [apply Hok|]. split;
    [|intros month req appliance hours_used; apply daily_input_frame, Hok].
  intros month1 month2 req date_str appliance hours_used
         Hpost Hdate Hin Hfield Hpos Hfirst once twice.
  pose proof (daily_input_consistent py_float month1 req db Hok) as Hok1.
  fold once in Hok1.
  assert (Hlogged : forall b hb,
             In b (appliance_table db) ->
             hours_field py_float req b = inr hb ->
             Py.gt (PyFloat hb) (PyInt 0) = true ->
             exists rowid,
               filter (same_day_appliance date_str (Appliance.id b))
                      (daily_consumption_table once)
               = [DailyConsumption.mk rowid date_str (Appliance.id b) hb
                    (Appliance.power_watts b * hb / 1000)%float]).
  { intros b hb Hb Hfb Hgt. now apply daily_input_logged. }
  destruct (daily_input_committed _ _ _ _ _ Hpost Hdate Hfirst)
    as (rows1 & Hrun1 & Hflush1 & Heq1).
  assert (Honce : once = mkdb (appliance_table db) rows1)
    by (unfold once; now rewrite Heq1).
  destruct Hok1 as ([Happs1 Hrows1 _] & _ & _).
  rewrite Honce in Hlogged, Hrows1. simpl in Hlogged, Hrows1.
  assert (Hrun2 : daily_input_loop py_float req date_str (appliance_table db) rows1
                  = inr rows1).
  { apply daily_input_loop_again; [exact Hrows1|exact Hflush1|].
    intros b Hb.
    destruct (daily_input_loop_fields py_float req date_str _ _ _ Hrun1 b Hb)
      as (hb & Hfb).
    exists hb. split; [exact Hfb|]. intros Hgt. now apply Hlogged. }
  assert (Htwice : twice = (Redirect "daily_input", once)).
  { unfold twice, daily_input. rewrite Honce. simpl.
    rewrite Hpost, Hdate, Hrun2. cbn [bind]. rewrite Hflush1.
    destruct (appliance_table db); [contradiction|reflexivity]. }
  rewrite Htwice. simpl. repeat split.
  rewrite Honce. simpl. now apply Hlogged.
Qed.

Lemma daily_input_twice_witness :
  reachable decimal_float fridge_db
  /\ fst (daily_input decimal_float "2024-06" five_hours_form fridge_db)
     = Redirect "daily_input"
  /\ snd (daily_input decimal_float "2024-06" five_hours_form
            (snd (daily_input decimal_float "2024-06" five_hours_form fridge_db)))
     = snd (daily_input decimal_float "2024-06" five_hours_form fridge_db)
  /\ exists rowid,
       filter (same_day_appliance "2024-06-01" 1)
              (daily_consumption_table
                 (snd (daily_input decimal_float "2024-06" five_hours_form
                         (snd (daily_input decimal_float "2024-06" five_hours_form
                                 fridge_db)))))
       = [DailyConsumption.mk rowid "2024-06-01" 1 5 (150 * 5 / 1000)%float].
Proof.
  split; [exact reachable_fridge_db|].
  assert (Hfirst : fst (daily_input decimal_float "2024-06" five_hours_form fridge_db)
                   = Redirect "daily_input") by (vm_compute; reflexivity).
  split; [exact Hfirst|].
  refine (proj2 (proj1 (proj2 (daily_input_twice decimal_float fridge_db
                                 reachable_fridge_db))
                       "2024-06" "2024-06" five_hours_form "2024-06-01"
                       (Appliance.mk 1 "Fridge" 150) 5%float _ _ _ _ _ Hfirst)).
  - reflexivity.
  - reflexivity.
  - vm_compute. left. reflexivity.
  - vm_compute. reflexivity.
  - vm_compute. reflexivity.
Defined.

(** C2 as stated fails for an hours value that is not positive: the form
    with 0 hours for the fridge, submitted twice and accepted twice, leaves
    no row for that date and appliance, not one. *)
Lemma zero_hours_twice_stores_nothing :
  decimal_float "0" = Some 0%float
  /\ fst (daily_input decimal_float "2024-06" zero_hours_form fridge_db)
     = Redirect "daily_input"
  /\ fst (daily_input decimal_float "2024-06" zero_hours_form
            (snd (daily_input decimal_float "2024-06" zero_hours_form fridge_db)))
     = Redirect "daily_input"
  /\ filter (same_day_appliance "2024-06-01" 1)
            (daily_consumption_table
               (snd (daily_input decimal_float "2024-06" zero_hours_form
                       (snd (daily_input decimal_float "2024-06" zero_hours_form
                               fridge_db)))))
     = [].
Proof. repeat split; vm_compute; reflexivity. Qed.

(** C9: in a database whose primary keys are unique, a POST to /daily-input
    leaves every row of an appliance whose hours field is absent from the
    form, or parses to a value that is not greater than 0, exactly as it was:
    none is created, none is changed, none is deleted, whatever the form
    says about the other appliances. *)
Theorem daily_input_skips (py_float : string -> option float)
    (current_month : string) (req : request) (db : database)
    (appliance : Appliance.t) :
  wf db ->
  In appliance (appliance_table db) ->
  (Dict.get ("hours_" ++ Py.str (Appliance.id appliance))%string (form req) = None
   \/ exists s hours_used,
        Dict.get ("hours_" ++ Py.str (Appliance.id appliance))%string (form req) = Some s
        /\ py_float s = Some hours_used
        /\ (0 <? hours_used)%float = false) ->
  filter (fun dc => DailyConsumption.appliance_id dc =? Appliance.id appliance)
         (daily_consumption_table (snd (daily_input py_float current_month req db)))
  = filter (fun dc => DailyConsumption.appliance_id dc =? Appliance.id appliance)
           (daily_consumption_table db).
Proof.
  intros Hwf Hin Hform.
  assert (Hskip : exists hours_used,
             hours_field py_float req appliance = inr hours_used
             /\ Py.gt (PyFloat hours_used) (PyInt 0) = false).
  { unfold hours_field.
    destruct Hform as [->|(s & hours_used & -> & -> & Hle)].
    - exists (Py.float_of_Z 0). split; [reflexivity|]. vm_compute. reflexivity.
    - exists hours_used. split; [reflexivity|]. exact Hle. }
  destruct Hskip as (hours_used & Hfield & Hgt).
  now apply (daily_input_frame py_float current_month req db appliance hours_used).
Qed.

Lemma daily_input_skips_witness :
  wf june_db
  /\ In (Appliance.mk 1 "Fridge" 150) (appliance_table june_db)
  /\ filter (fun dc => DailyConsumption.appliance_id dc =? 1)
            (daily_consumption_table
               (snd (daily_input decimal_float "2024-06" zero_hours_form june_db)))
     = filter (fun dc => DailyConsumption.appliance_id dc =? 1)
              (daily_consumption_table june_db).
Proof.
  pose proof (proj1 (reachable_consistent _ _ reachable_june_db)) as Hwf.
  assert (Hin : In (Appliance.mk 1 "Fridge" 150) (appliance_table june_db))
    by (vm_compute; left; reflexivity).
  split; [exact Hwf|]. split; [exact Hin|].
  apply (daily_input_skips decimal_float "2024-06" zero_hours_form june_db
           (Appliance.mk 1 "Fridge" 150) Hwf Hin).
  right. exists "0", 0%float. repeat split; vm_compute; reflexivity.
Defined.

(** ** Deleting an appliance *)

Lemma appliance_get_Some (appliance_id : Z) (db : database) :
  In appliance_id (map Appliance.id (appliance_table db)) ->
  exists appliance,
    appliance_get appliance_id db = Some appliance
    /\ In appliance (appliance_table db)
    /\ Appliance.id appliance = appliance_id.
Proof.
  unfold appliance_get. intros Hin.
  destruct (find _ _) as [appliance|] eqn:Hfind.
  - apply find_some in Hfind as [Ha Hid]. apply Z.eqb_eq in Hid. eauto.
  - exfalso. apply in_map_iff in Hin as (a & Hid & Ha).
    apply (find_none _ _ Hfind) in Ha. apply Z.eqb_neq in Ha. contradiction.
Qed.

Lemma appliance_get_None (appliance_id : Z) (db : database) :
  ~ In appliance_id (map Appliance.id (appliance_table db)) ->
  appliance_get appliance_id db = None.
Proof.
  unfold appliance_get. intros Hnotin.
  destruct (find _ _) as [appliance|] eqn:Hfind; [|reflexivity].
  exfalso. apply find_some in Hfind as [Ha Hid]. apply Z.eqb_eq in Hid.
  apply Hnotin. rewrite <- Hid. now apply in_map.
Qed.

(** C3: in a database whose primary keys are unique, deleting an appliance
    that exists removes exactly the DailyConsumption rows whose appliance_id
    is its id and exactly the appliance with that id; every other row and
    every other appliance stays, unchanged and in its place. *)
Theorem delete_appliance_cascade (appliance_id : Z) (db : database) :
  wf db ->
  In appliance_id (map Appliance.id (appliance_table db)) ->
  daily_consumption_table (snd (delete_appliance appliance_id db))
  = filter (fun dc => negb (DailyConsumption.appliance_id dc =? appliance_id))
           (daily_consumption_table db)
  /\ appliance_table (snd (delete_appliance appliance_id db))
     = filter (fun a => negb (Appliance.id a =? appliance_id)) (appliance_table db)
  /\ (forall dc,
        In dc (daily_consumption_table (snd (delete_appliance appliance_id db)))
        <-> In dc (daily_consumption_table db)
            /\ DailyConsumption.appliance_id dc <> appliance_id)
  /\ (forall a,
        In a (appliance_table (snd (delete_appliance appliance_id db)))
        <-> In a (appliance_table db) /\ Appliance.id a <> appliance_id).
Proof.
  intros [_ Hrows _] Hin.
  destruct (appliance_get_Some _ _ Hin) as (appliance & Hget & _ & Hid).
  unfold delete_appliance. rewrite Hget. unfold session_delete. simpl.
  rewrite Hid, delete_rows_cascade by assumption.
  split; [reflexivity|]. split; [reflexivity|].
  split; intros x; rewrite filter_In, negb_true_iff, Z.eqb_neq; reflexivity.
Qed.

Lemma delete_appliance_cascade_witness :
  wf two_appliance_db
  /\ In 1 (map Appliance.id (appliance_table two_appliance_db))
  /\ daily_consumption_table (snd (delete_appliance 1 two_appliance_db))
     = [DailyConsumption.mk 3 "2024-06-02" 2 2 2]
  /\ appliance_table (snd (delete_appliance 1 two_appliance_db))
     = [Appliance.mk 2 "AC" 1000].
Proof.
  pose proof (proj1 (reachable_consistent _ _ reachable_two_appliance_db)) as Hwf.
  assert (Hin : In 1 (map Appliance.id (appliance_table two_appliance_db)))
    by (vm_compute; left; reflexivity).
  split; [exact Hwf|]. split; [exact Hin|].
  destruct (delete_appliance_cascade 1 two_appliance_db Hwf Hin) as (-> & -> & _).
  split; vm_compute; reflexivity.
Defined.




(** ** Registering an appliance *)

(** C8, as the code has it: a POST to /appliance-setup checks only that
    power_watts parses as a float.  Text that does not parse raises
    ValueError and stores nothing; a NaN cannot be written to the NOT NULL
    column, so the commit raises IntegrityError and stores nothing; every
    other value that parses, whatever its sign, is stored as the power of a
    new appliance. *)
Theorem appliance_setup_any_power (py_float : string -> option float)
    (req : request) (db : database) (name s : string) :
  method req = POST ->
  Dict.get "name" (form req) = Some name ->
  Dict.get "power_watts" (form req) = Some s ->
  appliance_setup py_float req db
  = match py_float s with
    | Some power_watts =>
        if is_nan power_watts then (Raise IntegrityError, db)
        else
          (Redirect "appliance_setup",
           mkdb (appliance_table db
                 ++ [Appliance.mk (new_rowid (map Appliance.id (appliance_table db)))
                                  name power_watts])
                (daily_consumption_table db))
    | None => (Raise ValueError, db)
    end.
Proof.
  intros Hpost Hname Hpower. unfold appliance_setup.
  rewrite Hpost, Hname, Hpower. destruct (py_float s) as [power_watts|]; [|reflexivity].
  now destruct (is_nan power_watts).
Qed.

Lemma appliance_setup_any_power_witness :
  appliance_setup decimal_float
    (post [("name", "Heater"); ("power_watts", "2.5")]) create_all
  = (Redirect "appliance_setup", mkdb [Appliance.mk 1 "Heater" 2.5] []).
Proof.
  rewrite (appliance_setup_any_power decimal_float
             (post [("name", "Heater"); ("power_watts", "2.5")]) create_all
             "Heater" "2.5" eq_refl eq_refl eq_refl).
  vm_compute. reflexivity.
Defined.

(** C8 as stated fails: a power of -5 watts is not positive, and the POST
    that submits it creates the appliance all the same. *)
Lemma negative_power_is_stored :
  decimal_float "-5" = Some (-5)%float
  /\ (0 <? -5)%float = false
  /\ appliance_setup decimal_float
       (post [("name", "Heater"); ("power_watts", "-5")]) create_all
     = (Redirect "appliance_setup", mkdb [Appliance.mk 1 "Heater" (-5)] []).
Proof. repeat split; vm_compute; reflexivity. Qed.

(** ** The aggregation *)

Lemma values_set {K V : Type} `{EqKey K} (P : V -> Prop) (k : K) (v : V)
    (d : Dict.t K V) :
  Forall P (Dict.values d) -> P v -> Forall P (Dict.values (Dict.set k v d)).
Proof.
  intros Hd Hv. induction d as [|[k' v'] d IH]; simpl.
  - repeat constructor. exact Hv.
  - inversion Hd; subst.
    match goal with |- context [if ?c then _ else _] => destruct c end;
      simpl; constructor; auto.
Qed.

Lemma gt_float (x : float) (m : num) :
  Py.gt (PyFloat x) m = (Py.to_float m <? x)%float.
Proof. destruct m; reflexivity. Qed.

Section ApplianceMap.

Variable appliances : list Appliance.t.

Lemma appliance_map_fold (i : Z) (a : Appliance.t) :
  forall (todo : list Appliance.t) (m : Dict.t Z Appliance.t),
    Dict.get i (fold_left (fun m app => Dict.set (Appliance.id app) app m) todo m)
    = Some a ->
    (In a todo /\ Appliance.id a = i) \/ Dict.get i m = Some a.
Proof.
  induction todo as [|b todo IH]; simpl; intros m Hget; [auto|].
  apply IH in Hget as [[Hin Hid]|Hget]; [auto|].
  destruct (Z.eq_dec i (Appliance.id b)) as [->|Hne].
  - rewrite get_set_same in Hget. injection Hget as ->. auto.
  - rewrite get_set_other in Hget by assumption. auto.
Qed.

Lemma appliance_map_get (i : Z) (a : Appliance.t) :
  Dict.get i (appliance_map_of appliances) = Some a ->
  In a appliances /\ Appliance.id a = i.
Proof.
  intros Hget. apply appliance_map_fold in Hget as [H|H]; [exact H|discriminate].
Qed.

Lemma appliance_map_fold_has (i : Z) :
  forall (todo : list Appliance.t) (m : Dict.t Z Appliance.t),
    In i (map Appliance.id todo) \/ In i (Dict.keys m) ->
    In i (Dict.keys (fold_left (fun m app => Dict.set (Appliance.id app) app m) todo m)).
Proof.
  induction todo as [|b todo IH]; simpl; intros m Hin.
  - destruct Hin as [[]|Hin]. exact Hin.
  - apply IH. rewrite keys_set. destruct Hin as [[Hb|Hin]|Hin]; auto.
Qed.

Lemma appliance_map_has (i : Z) :
  In i (map Appliance.id appliances) ->
  exists a, Dict.get i (appliance_map_of appliances) = Some a.
Proof.
  intros Hin. destruct (Dict.get i (appliance_map_of appliances)) as [a|] eqn:Hget.
  - now exists a.
  - exfalso. apply get_None_iff in Hget. apply Hget.
    apply appliance_map_fold_has. now left.
Qed.

Lemma zero_totals_fold :
  forall (todo : list Appliance.t) (totals : Dict.t string num),
    Forall (fun v => v = PyInt 0) (Dict.values totals) ->
    let totals' :=
      fold_left (fun monthly_totals appliance =>
                   Dict.set (Appliance.name appliance) (PyInt 0) monthly_totals)
                todo totals in
    Forall (fun v => v = PyInt 0) (Dict.values totals')
    /\ forall k, (exists a, In a todo /\ Appliance.name a = k) \/ In k (Dict.keys totals) ->
                 In k (Dict.keys totals').
Proof.
  induction todo as [|b todo IH]; simpl; intros totals Hzero.
  - split; [exact Hzero|]. intros k [(a & [] & _)|Hin]. exact Hin.
  - assert (Hset : Forall (fun v => v = PyInt 0)
                     (Dict.values (Dict.set (Appliance.name b) (PyInt 0) totals))).
    { now apply values_set. }
    destruct (IH _ Hset) as [Hvalues Hkeys]. split; [exact Hvalues|].
    intros k Hk. apply Hkeys. rewrite keys_set.
    destruct Hk as [(a & [->|Hin] & Hname)|Hin]; eauto.
Qed.

Lemma zero_totals_values :
  Forall (fun v => v = PyInt 0) (Dict.values (zero_totals appliances)).
Proof. apply (zero_totals_fold appliances Dict.empty). constructor. Qed.

Lemma zero_totals_keys (a : Appliance.t) :
  In a appliances -> In (Appliance.name a) (Dict.keys (zero_totals appliances)).
Proof.
  intros Hin. apply (zero_totals_fold appliances Dict.empty); [constructor|].
  left. now exists a.
Qed.

Lemma zero_totals_get (a : Appliance.t) :
  In a appliances -> Dict.get (Appliance.name a) (zero_totals appliances) = Some (PyInt 0).
Proof.
  intros Hin. destruct (Dict.get _ _) as [v|] eqn:Hget.
  - apply get_Some_value in Hget.
    pose proof (proj1 (Forall_forall _ _) zero_totals_values v Hget) as ->. reflexivity.
  - exfalso. apply get_None_iff in Hget. apply Hget. now apply zero_totals_keys.
Qed.

End ApplianceMap.

Lemma sum_zeros (vs : list num) :
  Forall (fun v => v = PyInt 0) vs -> Py.sum vs = PyInt 0.
Proof.
  unfold Py.sum. induction 1 as [|v vs -> _ IH]; simpl; [reflexivity|exact IH].
Qed.

Section Loops.

Variable appliances : list Appliance.t.

Let appliance_map := appliance_map_of appliances.

Let names_known (totals : Dict.t string num) : Prop :=
  forall a, In a appliances -> In (Appliance.name a) (Dict.keys totals).

Let owned (rows : list DailyConsumption.t) : Prop :=
  forall dc, In dc rows ->
             In (DailyConsumption.appliance_id dc) (map Appliance.id appliances).

(** With the foreign key in place the inner loop of [monthly_results] never
    raises, and it finds the maximum the inner loop of [daily_analysis] finds. *)
Lemma monthly_day_loop_total :
  forall (day : list DailyConsumption.t) (totals : Dict.t string num)
         (m : num) (n : string),
    owned day -> names_known totals ->
    exists totals' m' n',
      monthly_day_loop appliance_map day totals m n = inr (totals', m', n')
      /\ names_known totals'
      /\ analysis_day_loop appliance_map day m n = inr (m', n').
Proof.
  induction day as [|dc day IH]; intros totals m n Hown Hnames.
  - exists totals, m, n. auto.
  - assert (Hown' : owned day) by (intros x Hx; apply Hown; now right).
    destruct (appliance_map_has appliances _ (Hown dc (or_introl eq_refl)))
      as (a & Hget).
    fold appliance_map in Hget.
    pose proof (proj1 (appliance_map_get _ _ _ Hget)) as Ha.
    destruct (Dict.get (Appliance.name a) totals) as [total|] eqn:Htotal;
      [|apply get_None_iff in Htotal; exfalso; apply Htotal, Hnames, Ha].
    assert (Hnames' : forall v, names_known (Dict.set (Appliance.name a) v totals)).
    { intros v b Hb. rewrite keys_set. right. now apply Hnames. }
    cbn [monthly_day_loop analysis_day_loop]. unfold getitem.
    rewrite Hget. cbn [bind]. rewrite Htotal. cbn [bind].
    destruct (Py.gt _ m); apply IH; auto.
Qed.

(** The same for the loops over the dates. *)
Lemma monthly_dates_loop_total (rows : list DailyConsumption.t) :
  owned rows ->
  forall (dates : list string) (totals : Dict.t string num)
         (daily_max : Dict.t string (string * num)),
    names_known totals ->
    exists totals' daily_max',
      monthly_dates_loop appliance_map rows dates totals daily_max
      = inr (totals', daily_max')
      /\ analysis_dates_loop appliance_map rows dates daily_max = inr daily_max'.
Proof.
  intros Hown. induction dates as [|date dates IH]; intros totals daily_max Hnames.
  - exists totals, daily_max. auto.
  - cbn [monthly_dates_loop analysis_dates_loop].
    destruct (monthly_day_loop_total
                (filter (fun dc => String.eqb (DailyConsumption.date dc) date) rows)
                totals (PyInt 0) "")
      as (totals1 & m1 & n1 & -> & Hnames1 & ->); auto.
    { intros dc Hdc. apply filter_In in Hdc as [Hdc _]. now apply Hown. }
    cbn [bind]. now apply IH.
Qed.

(** What the inner loop leaves, from any running maximum [m]. *)
Lemma analysis_day_loop_spec :
  forall (day : list DailyConsumption.t) (m m' : num) (n n' : string),
    analysis_day_loop appliance_map day m n = inr (m', n') ->
    ((forall dc, In dc day ->
                 Py.gt (PyFloat (DailyConsumption.consumption_kwh dc)) m = false)
     /\ m' = m /\ n' = n)
    \/ (exists before dc after appliance,
          day = before ++ dc :: after
          /\ In appliance appliances
          /\ Appliance.id appliance = DailyConsumption.appliance_id dc
          /\ n' = Appliance.name appliance
          /\ m' = PyFloat (DailyConsumption.consumption_kwh dc)
          /\ Py.gt (PyFloat (DailyConsumption.consumption_kwh dc)) m = true
          /\ (forall x, In x before ->
                        (DailyConsumption.consumption_kwh dc
                         <=? DailyConsumption.consumption_kwh x)%float = false)
          /\ (forall x, In x after ->
                        (DailyConsumption.consumption_kwh dc
                         <? DailyConsumption.consumption_kwh x)%float = false)).
Proof.
  induction day as [|dc day IH]; intros m m' n n' Hrun.
  - injection Hrun as <- <-. left. split; [intros dc []|auto].
  - cbn [analysis_day_loop] in Hrun. unfold getitem in Hrun.
    destruct (Dict.get (DailyConsumption.appliance_id dc) appliance_map)
      as [a|] eqn:Hget; cbn [bind] in Hrun; [|discriminate].
    destruct (appliance_map_get _ _ _ Hget) as [Ha Hid].
    destruct (Py.gt (PyFloat (DailyConsumption.consumption_kwh dc)) m) eqn:Hgt.
    + right. apply IH in Hrun as [(Hall & -> & ->)|Hlater].
      * exists [], dc, day, a.
        refine (conj eq_refl (conj Ha (conj Hid (conj eq_refl (conj eq_refl
                  (conj Hgt (conj _ _))))))).
        -- intros x [].
        -- intros x Hx. specialize (Hall x Hx). now rewrite gt_float in Hall.
      * destruct Hlater
          as (before & dc' & after & a' & -> & Ha' & Hid' & -> & -> & Hgt'
              & Hbefore & Hafter).
        rewrite gt_float in Hgt, Hgt'. simpl in Hgt'.
        exists (dc :: before), dc', after, a'.
        refine (conj eq_refl (conj Ha' (conj Hid' (conj eq_refl (conj eq_refl
                  (conj _ (conj _ Hafter))))))).
        -- rewrite gt_float. now apply (ltb_trans _ _ _ Hgt).
        -- intros x [<-|Hx]; [now apply ltb_not_leb|now apply Hbefore].
    + apply IH in Hrun as [(Hall & -> & ->)|Hlater].
      * left. split; [|auto]. intros x [<-|Hx]; auto.
      * right. destruct Hlater
          as (before & dc' & after & a' & -> & Ha' & Hid' & -> & -> & Hgt'
              & Hbefore & Hafter).
        exists (dc :: before), dc', after, a'.
        refine (conj eq_refl (conj Ha' (conj Hid' (conj eq_refl (conj eq_refl
                  (conj Hgt' (conj _ Hafter))))))).
        intros x [<-|Hx]; [|now apply Hbefore].
        destruct (_ <=? _)%float eqn:Hle; [|reflexivity].
        rewrite gt_float in Hgt, Hgt'.
        rewrite (ltb_leb_trans _ _ _ Hgt' Hle) in Hgt. discriminate.
Qed.

(** The dictionary the loop over the dates fills: each date of the loop
    maps to what the inner loop found for its rows. *)
Lemma analysis_dates_loop_get (rows : list DailyConsumption.t) (date : string) :
  forall (dates : list string) (daily_max daily_max' : Dict.t string (string * num)),
    analysis_dates_loop appliance_map rows dates daily_max = inr daily_max' ->
    (In date dates ->
     exists m n,
       analysis_day_loop appliance_map
         (filter (fun dc => String.eqb (DailyConsumption.date dc) date) rows)
         (PyInt 0) "" = inr (m, n)
       /\ Dict.get date daily_max' = Some (n, m))
    /\ (~ In date dates -> Dict.get date daily_max' = Dict.get date daily_max).
Proof.
  induction dates as [|date0 dates IH]; intros daily_max daily_max' Hrun.
  - injection Hrun as <-. split; [intros []|reflexivity].
  - cbn [analysis_dates_loop] in Hrun.
    destruct (analysis_day_loop appliance_map
                (filter (fun dc => String.eqb (DailyConsumption.date dc) date0) rows)
                (PyInt 0) "") as [e|[m0 n0]] eqn:Hday;
      cbn [bind] in Hrun; [discriminate|].
    destruct (IH _ _ Hrun) as [Hin Hout].
    destruct (in_dec string_dec date dates) as [Hlater|Hlater].
    + split; [intros _; now apply Hin|]. intros Hnot. exfalso. apply Hnot. now right.
    + rewrite (Hout Hlater).
      destruct (string_dec date date0) as [->|Hne].
      * split; [intros _|intros Hnot; exfalso; apply Hnot; now left].
        exists m0, n0. split; [exact Hday|apply get_set_same].
      * split; [intros [Heq|Hin']; [congruence|contradiction]|].
        intros _. now apply get_set_other.
Qed.

End Loops.

(** ** The reports *)

Lemma first_seen_order_iterates : iterates_set first_seen_order.
Proof.
  intros xs. split; [apply NoDup_nodup|]. intros x. apply nodup_In.
Qed.

Lemma iterates_nil (set_iter : list string -> list string) :
  iterates_set set_iter -> set_iter [] = [].
Proof.
  intros Hset. destruct (set_iter []) as [|x xs] eqn:E; [reflexivity|].
  exfalso. apply (proj2 (Hset []) x). rewrite E. now left.
Qed.

Lemma iterates_singleton (set_iter : list string -> list string) (x : string) :
  iterates_set set_iter -> set_iter [x] = [x].
Proof.
  intros Hset. destruct (Hset [x]) as [Hnd Hin].
  destruct (set_iter [x]) as [|y ys].
  - exfalso. apply (Hin x). now left.
  - assert (y = x) as -> by (destruct (proj1 (Hin y) (or_introl eq_refl)) as [|[]]; auto).
    destruct ys as [|z zs]; [reflexivity|].
    assert (z = x) as -> by
        (destruct (proj1 (Hin z) (or_intror (or_introl eq_refl))) as [|[]]; auto).
    inversion Hnd as [|? ? Hnotin _]. exfalso. apply Hnotin. now left.
Qed.

Lemma month_rows_owned (month : string) (db : database) :
  wf db ->
  forall dc, In dc (month_rows month db) ->
             In (DailyConsumption.appliance_id dc)
                (map Appliance.id (appliance_table db)).
Proof.
  intros [_ _ Hfk] dc Hdc. apply filter_In in Hdc as [Hdc _]. now apply Hfk.
Qed.

(** With the foreign key in place the aggregation of [monthly_results]
    returns, and its daily maxima are those of [daily_analysis]. *)
Lemma monthly_aggregation_total (set_iter : list string -> list string)
    (month : string) (db : database) :
  wf db ->
  exists totals daily_max,
    monthly_aggregation set_iter (month_rows month db) (appliance_table db)
    = inr (totals, daily_max)
    /\ analysis_dates_loop (appliance_map_of (appliance_table db))
         (month_rows month db)
         (set_iter (map DailyConsumption.date (month_rows month db))) Dict.empty
       = inr daily_max.
Proof.
  intros Hwf. unfold monthly_aggregation.
  apply monthly_dates_loop_total.
  - now apply month_rows_owned.
  - intros a Ha. now apply zero_totals_keys.
Qed.


(** C5, as the code has it: for the rows of a month in a well-formed
    database, daily_max_consumers (the same dictionary in monthly_results
    and in daily_analysis) has a key for a date exactly when the month has a
    row on that date.  When some row of the date has a consumption_kwh
    above 0, the date maps to the name of the appliance and the
    consumption_kwh of the first row, in row order, that no row of the date
    exceeds; when no row of the date is above 0 (an appliance of 0 or
    negative power), it maps to the initial pair of the empty name and 0. *)
Theorem daily_max_consumers_entry (set_iter : list string -> list string)
    (current_month : string) (req : request) (db : database) :
  iterates_set set_iter ->
  wf db ->
  exists page,
    fst (daily_analysis set_iter current_month req db) = Render page
    /\ (forall page',
          fst (monthly_results set_iter current_month req db) = Render page' ->
          MonthlyResults.daily_max_consumers page'
          = DailyAnalysis.daily_max_consumers page)
    /\ forall date,
         let day := filter (fun dc => String.eqb (DailyConsumption.date dc) date)
                           (month_rows (args_get "month" current_month req) db) in
         match Dict.get date (DailyAnalysis.daily_max_consumers page) with
         | None => day = []
         | Some entry => day <> [] /\ day_max_entry (appliance_table db) day entry
         end.
Proof.
  intros Hset Hwf.
  destruct (monthly_aggregation_total set_iter (args_get "month" current_month req)
              db Hwf) as (totals & daily_max & Hmonthly & Hanalysis).
  unfold daily_analysis, monthly_results. rewrite Hmonthly, Hanalysis.
  eexists. split; [reflexivity|]. split.
  - intros page'. destruct (Dict.get _ COUNTRY_DATA); simpl; [|discriminate].
    now intros [= <-].
  - intros date. simpl.
    set (day := filter _ (month_rows _ db)).
    destruct (analysis_dates_loop_get (appliance_table db) _ date _ _ _ Hanalysis)
      as [Hin Hout].
    set (rows := month_rows (args_get "month" current_month req) db) in *.
    assert (Hday : In date (set_iter (map DailyConsumption.date rows)) <-> day <> []).
    { rewrite (proj2 (Hset _)), in_map_iff. split.
      - intros (dc & Hdate & Hdc) Hempty.
        assert (Hdc' : In dc day)
          by (apply filter_In; split; [assumption|now apply String.eqb_eq]).
        rewrite Hempty in Hdc'. contradiction.
      - intros Hne. destruct day as [|dc day'] eqn:E; [contradiction|].
        assert (Hdc : In dc day) by (rewrite E; now left).
        apply filter_In in Hdc as [Hdc Hdate]. apply String.eqb_eq in Hdate. eauto. }
    destruct (in_dec string_dec date (set_iter (map DailyConsumption.date rows)))
      as [Hdate|Hdate].
    + destruct (Hin Hdate) as (m & n & Hrun & ->).
      split; [now apply Hday|].
      apply analysis_day_loop_spec in Hrun
        as [(Hall & -> & ->)
           |(before & dc & after & a & Hsplit & Ha & Hid & -> & -> & Hgt & Hrest)].
      * left. split; [|reflexivity]. intros dc Hdc. apply (Hall dc Hdc).
      * right. exists before, dc, after, a. repeat (split; [assumption|]).
        split; [reflexivity|]. split; [exact Hgt|exact Hrest].
    + rewrite (Hout Hdate). simpl.
      destruct day as [|dc day'] eqn:E; [reflexivity|].
      exfalso. apply Hdate, Hday. discriminate.
Qed.

Lemma daily_max_consumers_entry_witness :
  iterates_set first_seen_order
  /\ wf two_appliance_db
  /\ exists page,
       fst (daily_analysis first_seen_order "2024-06" june_usa two_appliance_db)
       = Render page
       /\ Dict.get "2024-06-02" (DailyAnalysis.daily_max_consumers page)
          = Some ("AC", PyFloat 2)
       /\ day_max_entry (appliance_table two_appliance_db)
            (filter (fun dc => String.eqb (DailyConsumption.date dc) "2024-06-02")
                    (month_rows "2024-06" two_appliance_db))
            ("AC", PyFloat 2).
Proof.
  pose proof (proj1 (reachable_consistent _ _ reachable_two_appliance_db)) as Hwf.
  split; [exact first_seen_order_iterates|]. split; [exact Hwf|].
  destruct (daily_max_consumers_entry first_seen_order "2024-06" june_usa
              two_appliance_db first_seen_order_iterates Hwf)
    as (page & Hpage & _ & Hentry).
  exists page. split; [exact Hpage|].
  specialize (Hentry "2024-06-02").
  assert (Hget : Dict.get "2024-06-02" (DailyAnalysis.daily_max_consumers page)
                 = Some ("AC", PyFloat 2)).
  { vm_compute in Hpage. injection Hpage as <-. vm_compute. reflexivity. }
  rewrite Hget in Hentry. split; [exact Hget|]. exact (proj2 Hentry).
Defined.

(** C5 as stated fails when no row of a date is above 0: the lamp of 0 W
    has the only row of 2024-06-01, and both reports give that date the
    empty name, which is the name of no appliance. *)
Lemma lamp_day_has_no_winner :
  appliance_table lamp_db = [Appliance.mk 1 "Lamp" 0]
  /\ daily_consumption_table lamp_db = [DailyConsumption.mk 1 "2024-06-01" 1 5 0]
  /\ fst (daily_analysis first_seen_order "2024-06" june_usa lamp_db)
     = Render (DailyAnalysis.mk "2024-06" [("2024-06-01", ("", PyInt 0))]
                                [("", 1)] (Some "", 1) 1)
  /\ fst (monthly_results first_seen_order "2024-06" june_usa lamp_db)
     = Render (MonthlyResults.mk "2024-06" "USA" (PyFloat 0) (PyFloat 0) (PyFloat 0)
                                 [("Lamp", PyFloat 0)]
                                 [("2024-06-01", ("", PyInt 0))]).
Proof. repeat split; vm_compute; reflexivity. Qed.

(** In a well-formed database, with a country of the tariff table, the
    report is rendered from what the aggregation returns. *)
Lemma monthly_results_renders (set_iter : list string -> list string)
    (current_month : string) (req : request) (db : database) (tariff : Tariff.t) :
  wf db ->
  Dict.get (args_get "country" "USA" req) COUNTRY_DATA = Some tariff ->
  exists totals daily_max,
    monthly_results set_iter current_month req db
    = (Render (MonthlyResults.mk
                 (args_get "month" current_month req)
                 (args_get "country" "USA" req)
                 (Py.sum (Dict.values totals))
                 (Py.mul (Py.sum (Dict.values totals))
                         (PyFloat (Tariff.cost_per_kwh tariff)))
                 (Py.mul (Py.sum (Dict.values totals)) (PyFloat 0.5))
                 totals daily_max),
       db).
Proof.
  intros Hwf Htariff.
  destruct (monthly_aggregation_total set_iter (args_get "month" current_month req)
              db Hwf) as (totals & daily_max & Hagg & _).
  exists totals, daily_max. unfold monthly_results. now rewrite Hagg, Htariff.
Qed.

(** C6, as the code has it: in a well-formed database, for every month and
    every country of the tariff table, monthly_results renders a report
    whose total_cost is total_monthly_kwh times that country's cost_per_kwh
    and whose carbon_footprint is total_monthly_kwh times 0.5, both as
    binary64 products; and no report is rendered in any other way.  For the
    single June entry of 0.75 kWh priced for the USA this gives
    carbon_footprint = 0.375 exactly and total_cost = 0.75 * 0.15 =
    0.11249999999999999, the binary64 number just below 0.1125. *)
Theorem monthly_cost (set_iter : list string -> list string) :
  (forall current_month req db tariff,
     wf db ->
     Dict.get (args_get "country" "USA" req) COUNTRY_DATA = Some tariff ->
     exists page,
       fst (monthly_results set_iter current_month req db) = Render page
       /\ MonthlyResults.total_cost page
          = Py.mul (MonthlyResults.total_kwh page) (PyFloat (Tariff.cost_per_kwh tariff))
       /\ MonthlyResults.carbon_footprint page
          = Py.mul (MonthlyResults.total_kwh page) (PyFloat 0.5))
  /\ (forall current_month req db page,
        fst (monthly_results set_iter current_month req db) = Render page ->
        exists tariff,
          Dict.get (args_get "country" "USA" req) COUNTRY_DATA = Some tariff
          /\ MonthlyResults.country page = args_get "country" "USA" req
          /\ MonthlyResults.total_kwh page
             = Py.sum (Dict.values (MonthlyResults.monthly_totals page))
          /\ MonthlyResults.total_cost page
             = Py.mul (MonthlyResults.total_kwh page)
                      (PyFloat (Tariff.cost_per_kwh tariff))
          /\ MonthlyResults.carbon_footprint page
             = Py.mul (MonthlyResults.total_kwh page) (PyFloat 0.5))
  /\ (iterates_set set_iter ->
      fst (monthly_results set_iter "2024-06" june_usa june_db)
      = Render (MonthlyResults.mk "2024-06" "USA" (PyFloat 0.75)
                  (PyFloat 0x1.cccccccccccccp-4) (PyFloat 0.375)
                  [("Fridge", PyFloat 0.75)]
                  [("2024-06-01", ("Fridge", PyFloat 0.75))])
      /\ (0.75 * 0.15)%float = 0x1.cccccccccccccp-4%float
      /\ next_up 0x1.cccccccccccccp-4 = 0.1125%float).
Proof.
  split; [|split].
  - intros current_month req db tariff Hwf Htariff.
    destruct (monthly_results_renders set_iter current_month req db tariff Hwf Htariff)
      as (totals & daily_max & ->).
    eexists. split; [reflexivity|]. split; reflexivity.
  - intros current_month req db page. unfold monthly_results.
    destruct (monthly_aggregation _ _ _) as [e|[totals daily_max]]; cbn [fst];
      [discriminate|].
    destruct (Dict.get _ COUNTRY_DATA) as [tariff|]; cbn [fst]; [|discriminate].
    intros [= <-]. exists tariff. cbn. auto.
  - intros Hset. split; [|split; vm_compute; reflexivity].
    unfold monthly_results, monthly_aggregation.
    change (map DailyConsumption.date (month_rows (args_get "month" "2024-06" june_usa)
                                                   june_db))
      with ["2024-06-01"].
    rewrite (iterates_singleton set_iter "2024-06-01" Hset).
    vm_compute. reflexivity.
Qed.

Lemma monthly_cost_witness :
  iterates_set first_seen_order
  /\ fst (monthly_results first_seen_order "2024-06" june_usa june_db)
     = Render (MonthlyResults.mk "2024-06" "USA" (PyFloat 0.75)
                 (PyFloat 0x1.cccccccccccccp-4) (PyFloat 0.375)
                 [("Fridge", PyFloat 0.75)]
                 [("2024-06-01", ("Fridge", PyFloat 0.75))]).
Proof.
  split; [exact first_seen_order_iterates|].
  exact (proj1 (proj2 (proj2 (monthly_cost first_seen_order))
                      first_seen_order_iterates)).
Defined.

(** C6 as stated fails in its example: the report for the single June entry
    priced for the USA does not carry a total_cost equal to 0.1125. *)
Lemma june_cost_is_not_0_1125 :
  ~ exists page,
      fst (monthly_results first_seen_order "2024-06" june_usa june_db) = Render page
      /\ MonthlyResults.total_cost page = PyFloat 0.1125.
Proof.
  intros (page & Hpage & Hcost).
  vm_compute in Hpage. injection Hpage as <-. simpl in Hcost.
  apply (f_equal (fun v => PrimFloat.eqb (Py.to_float v) 0.1125)) in Hcost.
  vm_compute in Hcost. discriminate Hcost.
Qed.

(** C7: for a month without DailyConsumption rows neither report fails.
    The aggregation of monthly_results returns with every registered
    appliance at the int 0 in monthly_totals and with daily_max_consumers
    empty, so that total_monthly_kwh is 0 and, for a country of the tariff
    table, the report is rendered from these; daily_analysis renders with
    daily_max_consumers and appliance_days empty and most_frequent_max
    equal to (None, 0). *)
Theorem empty_month (set_iter : list string -> list string)
    (current_month : string) (req : request) (db : database) :
  iterates_set set_iter ->
  month_rows (args_get "month" current_month req) db = [] ->
  fst (daily_analysis set_iter current_month req db)
  = Render (DailyAnalysis.mk (args_get "month" current_month req) [] [] (None, 0) 0)
  /\ monthly_aggregation set_iter [] (appliance_table db)
     = inr (zero_totals (appliance_table db), [])
  /\ (forall a, In a (appliance_table db) ->
                Dict.get (Appliance.name a) (zero_totals (appliance_table db))
                = Some (PyInt 0))
  /\ Py.sum (Dict.values (zero_totals (appliance_table db))) = PyInt 0
  /\ (forall tariff,
        Dict.get (args_get "country" "USA" req) COUNTRY_DATA = Some tariff ->
        fst (monthly_results set_iter current_month req db)
        = Render (MonthlyResults.mk (args_get "month" current_month req)
                    (args_get "country" "USA" req)
                    (PyInt 0)
                    (Py.mul (PyInt 0) (PyFloat (Tariff.cost_per_kwh tariff)))
                    (Py.mul (PyInt 0) (PyFloat 0.5))
                    (zero_totals (appliance_table db))
                    [])).
Proof.
  intros Hset Hempty.
  assert (Hagg : monthly_aggregation set_iter [] (appliance_table db)
                 = inr (zero_totals (appliance_table db), [])).
  { unfold monthly_aggregation. simpl. now rewrite (iterates_nil _ Hset). }
  pose proof (sum_zeros _ (zero_totals_values (appliance_table db))) as Hsum.
  split; [|split; [exact Hagg|split; [|split; [exact Hsum|]]]].
  - unfold daily_analysis. rewrite Hempty. simpl.
    now rewrite (iterates_nil _ Hset).
  - intros a Ha. now apply zero_totals_get.
  - intros tariff Htariff. unfold monthly_results.
    rewrite Hempty, Hagg, Htariff, Hsum. reflexivity.
Qed.

Lemma empty_month_witness :
  iterates_set first_seen_order
  /\ month_rows (args_get "month" "2024-06" july_usa) june_db = []
  /\ fst (daily_analysis first_seen_order "2024-06" july_usa june_db)
     = Render (DailyAnalysis.mk "2024-07" [] [] (None, 0) 0)
  /\ fst (monthly_results first_seen_order "2024-06" july_usa june_db)
     = Render (MonthlyResults.mk "2024-07" "USA" (PyInt 0) (PyFloat 0) (PyFloat 0)
                 [("Fridge", PyInt 0)] []).
Proof.
  assert (Hempty : month_rows (args_get "month" "2024-06" july_usa) june_db = [])
    by (vm_compute; reflexivity).
  split; [exact first_seen_order_iterates|]. split; [exact Hempty|].
  destruct (empty_month first_seen_order "2024-06" july_usa june_db
              first_seen_order_iterates Hempty) as (Hanalysis & _ & _ & _ & Hmonthly).
  split; [exact Hanalysis|].
  rewrite (Hmonthly (Tariff.mk 120 60 0.15) eq_refl). vm_compute. reflexivity.
Defined.




(** * Further properties of the handlers *)

(** ** More on the daily-input handler *)

Lemma hours_field_raises (py_float : string -> option float) (req : request)
    (appliance : Appliance.t) (e : exception) :
  hours_field py_float req appliance = inl e -> e = ValueError.
Proof.
  unfold hours_field. destruct (Dict.get _ (form req)) as [s|]; [|discriminate].
  destruct (py_float s); [discriminate|]. now intros [= <-].
Qed.

Lemma daily_input_loop_bad_field (py_float : string -> option float) (req : request)
    (date_str : string) (appliance : Appliance.t) :
  hours_field py_float req appliance = inl ValueError ->
  forall (todo : list Appliance.t) (rows : list DailyConsumption.t),
    In appliance todo ->
    exists e,
      daily_input_loop py_float req date_str todo rows = inl e
      /\ (e = ValueError \/ e = IntegrityError).
Proof.
  intros Hbad. induction todo as [|b todo IH]; intros rows Hin; [contradiction|].
  cbn [daily_input_loop].
  destruct (hours_field py_float req b) as [e|hb] eqn:Hfb; cbn [bind].
  - exists e. split; [reflexivity|]. left. now apply (hours_field_raises _ _ _ _ Hfb).
  - assert (Hrest : In appliance todo) by (destruct Hin as [->|Hin]; [congruence|exact Hin]).
    destruct (Py.gt _ _); [|now apply IH].
    unfold flush. destruct (existsb _ rows); cbn [bind]; [|now apply IH].
    exists IntegrityError. split; [reflexivity|now right].
Qed.

(** A POST to /daily-input is all or nothing: when the hours field of any
    one registered appliance holds text that [float] rejects, the request
    fails and the store is as it was, whatever the form says about the other
    appliances.  The failure is the ValueError of that field, unless a flush
    for an earlier appliance has already failed on a NaN. *)
Theorem daily_input_all_or_nothing (py_float : string -> option float)
    (current_month : string) (req : request) (db : database)
    (date_str s : string) (appliance : Appliance.t) :
  method req = POST ->
  Dict.get "date" (form req) = Some date_str ->
  In appliance (appliance_table db) ->
  Dict.get ("hours_" ++ Py.str (Appliance.id appliance))%string (form req) = Some s ->
  py_float s = None ->
  exists e,
    daily_input py_float current_month req db = (Raise e, db)
    /\ (e = ValueError \/ e = IntegrityError).
Proof.
  intros Hpost Hdate Hin Hfield Hparse.
  assert (Hbad : hours_field py_float req appliance = inl ValueError)
    by (unfold hours_field; now rewrite Hfield, Hparse).
  destruct (daily_input_loop_bad_field py_float req date_str appliance Hbad
              (appliance_table db) (daily_consumption_table db) Hin)
    as (e & Hrun & He).
  exists e. split; [|exact He].
  unfold daily_input. rewrite Hpost, Hdate, Hrun. cbn [bind].
  destruct (appliance_table db); [contradiction|reflexivity].
Qed.

Lemma daily_input_all_or_nothing_witness :
  In (Appliance.mk 2 "AC" 1000) (appliance_table two_appliance_db)
  /\ daily_input decimal_float "2024-06"
       (post [("date", "2024-06-05"); ("hours_1", "3"); ("hours_2", "a lot")])
       two_appliance_db
     = (Raise ValueError, two_appliance_db)
  /\ exists e,
       daily_input decimal_float "2024-06"
         (post [("date", "2024-06-05"); ("hours_1", "3"); ("hours_2", "a lot")])
         two_appliance_db
       = (Raise e, two_appliance_db)
       /\ (e = ValueError \/ e = IntegrityError).
Proof.
  assert (Hin : In (Appliance.mk 2 "AC" 1000) (appliance_table two_appliance_db))
    by (vm_compute; right; left; reflexivity).
  split; [exact Hin|]. split; [vm_compute; reflexivity|].
  apply (daily_input_all_or_nothing decimal_float "2024-06" _ two_appliance_db
           "2024-06-05" "a lot" (Appliance.mk 2 "AC" 1000));
    try reflexivity; exact Hin.
Defined.

(** The upsert for one date leaves the rows of every other date alone. *)
Lemma upsert_other_dates (date_str date' : string) (appliance : Appliance.t)
    (hours_used : float) (rows : list DailyConsumption.t) :
  NoDup (map DailyConsumption.id rows) ->
  date_str <> date' ->
  filter (fun dc => String.eqb (DailyConsumption.date dc) date')
         (upsert date_str appliance hours_used rows)
  = filter (fun dc => String.eqb (DailyConsumption.date dc) date') rows.
Proof.
  intros Hnd Hne. unfold upsert.
  destruct (find _ rows) as [existing|] eqn:Hfind.
  - apply find_some in Hfind as [Hin Hkey].
    apply same_day_appliance_iff in Hkey. injection Hkey as Hdate _.
    apply filter_map_frame. intros dc Hdc. simpl.
    destruct (Z.eqb_spec (DailyConsumption.id dc) (DailyConsumption.id existing))
      as [Hid|]; auto.
    right. rewrite (NoDup_map_inj _ _ _ _ Hnd Hdc Hin Hid). simpl.
    rewrite Hdate. split; now apply String.eqb_neq.
  - rewrite filter_app. simpl.
    rewrite (proj2 (String.eqb_neq _ _) Hne). now rewrite app_nil_r.
Qed.

(** The upsert keeps every row there was, under its primary key and its
    natural key, and adds at most one at the end. *)
Lemma upsert_identities (date_str : string) (appliance : Appliance.t)
    (hours_used : float) (rows : list DailyConsumption.t) :
  NoDup (map DailyConsumption.id rows) ->
  exists added,
    map row_identity (upsert date_str appliance hours_used rows)
    = map row_identity rows ++ added.
Proof.
  intros Hnd. unfold upsert.
  destruct (find _ rows) as [existing|] eqn:Hfind.
  - apply find_some in Hfind as [Hin _]. exists [].
    split_update existing Hnd Hin.
    rewrite Hrows, app_nil_r, !map_app. reflexivity.
  - eexists. rewrite map_app. reflexivity.
Qed.

Lemma daily_input_loop_frames (py_float : string -> option float) (req : request)
    (date_str : string) :
  forall (todo : list Appliance.t) (rows rows' : list DailyConsumption.t),
    NoDup (map DailyConsumption.id rows) ->
    daily_input_loop py_float req date_str todo rows = inr rows' ->
    (forall date', date_str <> date' ->
       filter (fun dc => String.eqb (DailyConsumption.date dc) date') rows'
       = filter (fun dc => String.eqb (DailyConsumption.date dc) date') rows)
    /\ exists added, map row_identity rows' = map row_identity rows ++ added.
Proof.
  induction todo as [|b todo IH]; intros rows rows' Hnd Hrun.
  - injection Hrun as <-. split; [reflexivity|]. exists []. now rewrite app_nil_r.
  - cbn [daily_input_loop] in Hrun.
    destruct (hours_field py_float req b) as [e|hb]; cbn [bind] in Hrun;
      [discriminate|].
    destruct (Py.gt _ _).
    + flushed Hrun.
      destruct (IH _ _ (upsert_ids _ _ _ _ Hnd) Hrun) as [Hdates (added & Hids)].
      split.
      * intros date' Hne. rewrite (Hdates date' Hne).
        now apply upsert_other_dates.
      * destruct (upsert_identities date_str b hb rows Hnd) as (added0 & Hone).
        exists (added0 ++ added). now rewrite Hids, Hone, app_assoc.
    + now apply IH.
Qed.

(** No request to /daily-input touches the appliances, deletes a
    consumption row or gives a row another primary key, date or appliance:
    the rows there were stay where they were and new ones come after them;
    and the rows of every date other than the submitted one are left exactly
    as they were. *)
Theorem daily_input_preserves (py_float : string -> option float)
    (current_month : string) (req : request) (db : database) :
  wf db ->
  appliance_table (snd (daily_input py_float current_month req db))
  = appliance_table db
  /\ (exists added,
        map row_identity
            (daily_consumption_table (snd (daily_input py_float current_month req db)))
        = map row_identity (daily_consumption_table db) ++ added)
  /\ (forall date',
        Dict.get "date" (form req) <> Some date' ->
        filter (fun dc => String.eqb (DailyConsumption.date dc) date')
               (daily_consumption_table (snd (daily_input py_float current_month req db)))
        = filter (fun dc => String.eqb (DailyConsumption.date dc) date')
                 (daily_consumption_table db)).
Proof.
  intros [_ Hrows _].
  assert (Hsame : forall db' : database,
             db' = db ->
             appliance_table db' = appliance_table db
             /\ (exists added,
                   map row_identity (daily_consumption_table db')
                   = map row_identity (daily_consumption_table db) ++ added)
             /\ (forall date',
                   Dict.get "date" (form req) <> Some date' ->
                   filter (fun dc => String.eqb (DailyConsumption.date dc) date')
                          (daily_consumption_table db')
                   = filter (fun dc => String.eqb (DailyConsumption.date dc) date')
                            (daily_consumption_table db))).
  { intros db' ->. split; [reflexivity|]. split; [|reflexivity].
    exists []. now rewrite app_nil_r. }
  unfold daily_input.
  destruct (appliance_table db) as [|a0 apps] eqn:Htable; [now apply Hsame|].
  destruct (method req); [now apply Hsame|].
  destruct (Dict.get "date" (form req)) as [date_str|]; [|now apply Hsame].
  destruct (daily_input_loop _ _ _ _ _) as [e|rows'] eqn:Hrun; cbn [bind];
    [now apply Hsame|].
  destruct (flush rows') as [e|rows0] eqn:Hflush; [now apply Hsame|].
  apply flush_inr in Hflush as ->.
  cbn [snd appliance_table daily_consumption_table].
  destruct (daily_input_loop_frames _ _ _ _ _ _ Hrows Hrun) as [Hdates Hids].
  split; [reflexivity|]. split; [exact Hids|].
  intros date' Hne. apply Hdates. congruence.
Qed.

Lemma daily_input_preserves_witness :
  wf june_db
  /\ appliance_table (snd (daily_input decimal_float "2024-06" third_of_june_form june_db))
     = appliance_table june_db
  /\ filter (fun dc => String.eqb (DailyConsumption.date dc) "2024-06-01")
            (daily_consumption_table
               (snd (daily_input decimal_float "2024-06" third_of_june_form june_db)))
     = [june_row].
Proof.
  pose proof (proj1 (reachable_consistent _ _ reachable_june_db)) as Hwf.
  destruct (daily_input_preserves decimal_float "2024-06" third_of_june_form june_db Hwf)
    as (Happs & _ & Hdates).
  split; [exact Hwf|]. split; [exact Happs|].
  rewrite (Hdates "2024-06-01") by (vm_compute; discriminate).
  vm_compute. reflexivity.
Defined.

(** ** More on registering and deleting appliances *)

(** Deleting the same appliance id a second time ends in a 404 and changes
    nothing, for every id that SQLite can hold: the first request either
    found no such appliance or removed it. *)
Theorem delete_appliance_twice (appliance_id : Z) (db : database) :
  appliance_id < 2 ^ 63 ->
  delete_appliance appliance_id (snd (delete_appliance appliance_id db))
  = (Abort 404, snd (delete_appliance appliance_id db)).
Proof.
  intros Hsmall.
  assert (Hleb : (2 ^ 63 <=? appliance_id) = false) by (apply Z.leb_gt; exact Hsmall).
  unfold delete_appliance at 2 3.
  destruct (appliance_get appliance_id db) as [appliance|] eqn:Hget.
  - unfold delete_appliance. rewrite appliance_get_None; [now rewrite Hleb|].
    unfold appliance_get in Hget. apply find_some in Hget as [_ Hid].
    apply Z.eqb_eq in Hid.
    cbn [snd session_delete appliance_table]. rewrite in_map_iff.
    intros (a & Ha & Hin). apply filter_In in Hin as [_ Hne].
    rewrite Ha, Hid, Z.eqb_refl in Hne. discriminate.
  - rewrite Hleb. cbn [snd]. unfold delete_appliance. now rewrite Hget, Hleb.
Qed.

Lemma delete_appliance_twice_witness :
  1 < 2 ^ 63
  /\ fst (delete_appliance 1 june_db) = Redirect "appliance_setup"
  /\ delete_appliance 1 (snd (delete_appliance 1 june_db))
     = (Abort 404, snd (delete_appliance 1 june_db)).
Proof.
  split; [reflexivity|]. split; [vm_compute; reflexivity|].
  apply (delete_appliance_twice 1 june_db). reflexivity.
Defined.

(** A freshly registered appliance starts without consumption rows: its id
    is the id of no appliance in the table and, in a well-formed database,
    of no row either, also when it reuses the id of an appliance deleted
    before. *)
Theorem new_appliance_has_no_rows (py_float : string -> option float)
    (req : request) (db : database) :
  wf db ->
  fst (appliance_setup py_float req db) = Redirect "appliance_setup" ->
  exists appliance,
    appliance_table (snd (appliance_setup py_float req db))
    = appliance_table db ++ [appliance]
    /\ daily_consumption_table (snd (appliance_setup py_float req db))
       = daily_consumption_table db
    /\ ~ In (Appliance.id appliance) (map Appliance.id (appliance_table db))
    /\ filter (fun dc => DailyConsumption.appliance_id dc =? Appliance.id appliance)
              (daily_consumption_table (snd (appliance_setup py_float req db)))
       = [].
Proof.
  intros [_ _ Hfk]. unfold appliance_setup.
  destruct (method req); cbn [fst]; [discriminate|].
  destruct (Dict.get "name" (form req)) as [name|]; cbn [fst]; [|discriminate].
  destruct (Dict.get "power_watts" (form req)) as [s|]; cbn [fst]; [|discriminate].
  destruct (py_float s) as [power_watts|]; cbn [fst]; [|discriminate].
  destruct (is_nan power_watts); cbn [fst]; [discriminate|].
  intros _. eexists. cbn [snd appliance_table daily_consumption_table].
  split; [reflexivity|]. split; [reflexivity|].
  pose proof (new_rowid_fresh (map Appliance.id (appliance_table db))) as Hfresh.
  split; [exact Hfresh|].
  apply filter_none. intros dc Hdc. cbn [Appliance.id]. apply Z.eqb_neq.
  intros Hown. apply Hfresh. rewrite <- Hown. now apply Hfk.
Qed.

Lemma new_appliance_has_no_rows_witness :
  wf (snd (delete_appliance 1 june_db))
  /\ appliance_table
       (snd (appliance_setup decimal_float freezer_form (snd (delete_appliance 1 june_db))))
     = [Appliance.mk 1 "Freezer" 200]
  /\ exists appliance,
       appliance_table
         (snd (appliance_setup decimal_float freezer_form
                 (snd (delete_appliance 1 june_db))))
       = appliance_table (snd (delete_appliance 1 june_db)) ++ [appliance]
       /\ filter (fun dc => DailyConsumption.appliance_id dc =? Appliance.id appliance)
                 (daily_consumption_table
                    (snd (appliance_setup decimal_float freezer_form
                            (snd (delete_appliance 1 june_db)))))
          = [].
Proof.
  assert (Hwf : wf (snd (delete_appliance 1 june_db))).
  { apply (reachable_consistent decimal_float).
    apply reach_delete_appliance. exact reachable_june_db. }
  split; [exact Hwf|]. split; [vm_compute; reflexivity|].
  destruct (new_appliance_has_no_rows decimal_float freezer_form
              (snd (delete_appliance 1 june_db)) Hwf eq_refl)
    as (appliance & Happs & _ & _ & Hrows).
  exists appliance. split; [exact Happs|exact Hrows].
Defined.

(** ** The JSON of one day *)

Lemma find_filter {A : Type} (p q : A -> bool) (l : list A) :
  find p (filter q l) = find (fun x => q x && p x) l.
Proof.
  induction l as [|a l IH]; simpl; [reflexivity|].
  destruct (q a); simpl; [now rewrite IH|exact IH].
Qed.

(** A column that is determined by a duplicate-free column on the same
    rows, and determines it, is duplicate-free too. *)
Lemma NoDup_map_transfer {Row Col1 Col2 : Type} (f : Row -> Col1) (g : Row -> Col2) :
  forall table : list Row,
    (forall x y, In x table -> In y table -> g x = g y -> f x = f y) ->
    NoDup (map f table) -> NoDup (map g table).
Proof.
  intros table. induction table as [|row table IH]; simpl; intros Hfg Hnd.
  - constructor.
  - inversion Hnd as [|? ? Hnotin Hnd']; subst. constructor.
    + intros Hin. apply Hnotin. apply in_map_iff in Hin as (x & Hx & Hin).
      apply in_map_iff. exists x. split; [|exact Hin].
      apply Hfg; auto.
    + apply IH; auto.
Qed.

Lemma day_data_fold (i : Z) :
  forall (day : list DailyConsumption.t) (data : Dict.t Z (float * float)),
    NoDup (map DailyConsumption.appliance_id day) ->
    Dict.get i
      (fold_left (fun data entry =>
                    Dict.set (DailyConsumption.appliance_id entry)
                             (DailyConsumption.hours_used entry,
                              DailyConsumption.consumption_kwh entry) data)
                 day data)
    = match find (fun dc => DailyConsumption.appliance_id dc =? i) day with
      | Some dc => Some (day_data_entry dc)
      | None => Dict.get i data
      end.
Proof.
  induction day as [|dc day IH]; intros data Hnd; [reflexivity|].
  inversion Hnd as [|? ? Hnotin Hnd']; subst.
  cbn [fold_left find]. rewrite (IH _ Hnd').
  destruct (Z.eqb_spec (DailyConsumption.appliance_id dc) i) as [Hown|Hown].
  - destruct (find _ day) as [dc'|] eqn:Hfind.
    + exfalso. apply find_some in Hfind as [Hin Hown'].
      apply Z.eqb_eq in Hown'. apply Hnotin. rewrite Hown, <- Hown'.
      now apply in_map.
    + rewrite <- Hown. now rewrite get_set_same.
  - destruct (find _ day); [reflexivity|].
    apply get_set_other. congruence.
Qed.

(** With at most one row per date and appliance, [get_day_data] answers
    for an appliance id exactly when the date has a row of that appliance,
    with that row's hours_used and consumption_kwh. *)
Theorem get_day_data_lookup (date : string) (db : database) (i : Z) :
  one_per_day (daily_consumption_table db) ->
  Dict.get i (get_day_data date db)
  = option_map day_data_entry
      (find (same_day_appliance date i) (daily_consumption_table db)).
Proof.
  intros Hkeys. unfold get_day_data.
  rewrite day_data_fold.
  - rewrite find_filter.
    now destruct (find _ (daily_consumption_table db)).
  - apply (NoDup_map_transfer day_key).
    + intros x y Hx Hy Hown. apply filter_In in Hx as [_ Hx], Hy as [_ Hy].
      apply String.eqb_eq in Hx, Hy. unfold day_key. congruence.
    + now apply NoDup_map_filter.
Qed.

Lemma get_day_data_lookup_witness :
  one_per_day (daily_consumption_table two_appliance_db)
  /\ Dict.get 2 (get_day_data "2024-06-02" two_appliance_db) = Some (2%float, 2%float)
  /\ Dict.get 2 (get_day_data "2024-06-01" two_appliance_db) = None.
Proof.
  pose proof (proj1 (proj2 (reachable_consistent _ _ reachable_two_appliance_db)))
    as Hkeys.
  split; [exact Hkeys|].
  rewrite !(get_day_data_lookup _ two_appliance_db _ Hkeys).
  split; vm_compute; reflexivity.
Defined.

(** What the daily-input form stores, the day's JSON gives back: after an
    accepted submission with H > 0 hours for an appliance of power P on
    date D, [get_day_data] for D maps the appliance's id to H and
    P * H / 1000. *)
Theorem daily_input_then_get_day_data (py_float : string -> option float)
    (current_month : string) (req : request) (db : database) (date_str : string)
    (appliance : Appliance.t) (hours_used : float) :
  reachable py_float db ->
  method req = POST ->
  Dict.get "date" (form req) = Some date_str ->
  In appliance (appliance_table db) ->
  hours_field py_float req appliance = inr hours_used ->
  Py.gt (PyFloat hours_used) (PyInt 0) = true ->
  fst (daily_input py_float current_month req db) = Redirect "daily_input" ->
  Dict.get (Appliance.id appliance)
           (get_day_data date_str (snd (daily_input py_float current_month req db)))
  = Some (hours_used, (Appliance.power_watts appliance * hours_used / 1000)%float).
Proof.
  intros Hreach Hpost Hdate Hin Hfield Hpos Hok.
  pose proof (reachable_consistent _ _ Hreach) as Hcons.
  pose proof (daily_input_consistent py_float current_month req db Hcons)
    as (_ & Hkeys & _).
  destruct (daily_input_logged py_float current_month req db date_str appliance
              hours_used Hcons Hpost Hdate Hin Hfield Hpos Hok) as (rowid & Hlogged).
  rewrite (get_day_data_lookup _ _ _ Hkeys).
  now rewrite (find_filter_head _ _ _ Hlogged).
Qed.

Lemma daily_input_then_get_day_data_witness :
  reachable decimal_float june_db
  /\ Dict.get 1 (get_day_data "2024-06-03"
                   (snd (daily_input decimal_float "2024-06" third_of_june_form june_db)))
     = Some (2%float, (150 * 2 / 1000)%float).
Proof.
  split; [exact reachable_june_db|].
  apply (daily_input_then_get_day_data decimal_float "2024-06" third_of_june_form
           june_db "2024-06-03" (Appliance.mk 1 "Fridge" 150) 2%float
           reachable_june_db eq_refl eq_refl).
  - vm_compute. left. reflexivity.
  - vm_compute. reflexivity.
  - vm_compute. reflexivity.
  - vm_compute. reflexivity.
Defined.

(** ** The counts of the daily analysis *)

Section DictMore.
Context {K V : Type} `{EqKey K}.

Lemma get_Some_In (k : K) (v : V) (d : Dict.t K V) :
  Dict.get k d = Some v -> In (k, v) d.
Proof.
  induction d as [|[k' v'] d IH]; simpl; [discriminate|].
  destruct (key_eqb_spec k k') as [->|Hne]; [intros [= ->]; now left|auto].
Qed.

Lemma set_keys_NoDup (k : K) (v : V) (d : Dict.t K V) :
  NoDup (Dict.keys d) -> NoDup (Dict.keys (Dict.set k v d)).
Proof.
  induction d as [|[k' v'] d IH]; simpl; intros Hnd.
  - constructor; [intros []|constructor].
  - inversion Hnd as [|? ? Hnotin Hnd']; subst.
    destruct (key_eqb_spec k k') as [->|Hne]; simpl.
    + now constructor.
    + constructor; [|now apply IH].
      fold (Dict.keys (Dict.set k v d)). rewrite keys_set. intros [Heq|Hin]; auto.
Qed.

Lemma get_of_In (k : K) (v : V) (d : Dict.t K V) :
  NoDup (Dict.keys d) -> In (k, v) d -> Dict.get k d = Some v.
Proof.
  induction d as [|[k' v'] d IH]; simpl; intros Hnd Hin; [contradiction|].
  inversion Hnd as [|? ? Hnotin Hnd']; subst.
  destruct Hin as [[= -> ->]|Hin].
  - now rewrite key_eqb_refl.
  - destruct (key_eqb_spec k k') as [->|Hne]; [|now apply IH].
    exfalso. apply Hnotin. apply in_map_iff. now exists (k', v).
Qed.

End DictMore.

Lemma count_days_fold (n : string) :
  forall (items : Dict.t string (string * num)) (appliance_days : Dict.t string Z),
    Dict.get n
      (fold_left (fun appliance_days item =>
                    let max_appliance := fst (snd item) in
                    let seen := match Dict.get max_appliance appliance_days with
                                | Some c => c
                                | None => 0
                                end in
                    Dict.set max_appliance (seen + 1) appliance_days)
                 items appliance_days)
    = if days_won n items =? 0 then Dict.get n appliance_days
      else Some (match Dict.get n appliance_days with
                 | Some c => c
                 | None => 0
                 end + days_won n items).
Proof.
  unfold days_won.
  induction items as [|item items IH]; intros appliance_days; [reflexivity|].
  cbn [fold_left filter]. rewrite IH.
  destruct (String.eqb_spec (fst (snd item)) n) as [Heq|Hne].
  - rewrite Heq, get_set_same. cbn [List.length].
    match goal with |- context [List.length ?l] => generalize (List.length l) end.
    intros c.
    destruct (Z.eqb_spec (Z.of_nat c) 0); destruct (Z.eqb_spec (Z.of_nat (S c)) 0);
      try lia; f_equal; lia.
  - rewrite get_set_other by congruence. reflexivity.
Qed.

Lemma count_days_keys :
  forall (items : Dict.t string (string * num)) (appliance_days : Dict.t string Z),
    NoDup (Dict.keys appliance_days) ->
    NoDup (Dict.keys
             (fold_left (fun appliance_days item =>
                           let max_appliance := fst (snd item) in
                           let seen := match Dict.get max_appliance appliance_days with
                                       | Some c => c
                                       | None => 0
                                       end in
                           Dict.set max_appliance (seen + 1) appliance_days)
                        items appliance_days)).
Proof.
  induction items as [|item items IH]; intros appliance_days Hnd; [exact Hnd|].
  cbn [fold_left]. apply IH. now apply set_keys_NoDup.
Qed.

(** [max(items, key=...)] from a first item: the winner splits the items
    into earlier ones with a smaller count and later ones with no greater
    count. *)
Lemma max_by_count_fold :
  forall (others : list (string * Z)) (first : string * Z),
    exists before after,
      first :: others
      = before ++ fold_left (fun best item => if snd best <? snd item then item else best)
                            others first :: after
      /\ (forall x, In x before ->
            snd x < snd (fold_left (fun best item =>
                                      if snd best <? snd item then item else best)
                                   others first))
      /\ (forall x, In x after ->
            snd x <= snd (fold_left (fun best item =>
                                       if snd best <? snd item then item else best)
                                    others first)).
Proof.
  induction others as [|y ys IH]; intros first.
  - exists [], []. split; [reflexivity|]. split; intros x [].
  - cbn [fold_left].
    destruct (Z.ltb_spec (snd first) (snd y)) as [Hlt|Hge].
    + destruct (IH y) as (before & after & Hsplit & Hbefore & Hafter).
      exists (first :: before), after. split; [cbn [app]; now rewrite <- Hsplit|].
      split; [|exact Hafter].
      intros x [<-|Hx]; [|now apply Hbefore].
      destruct before as [|b before'].
      * injection Hsplit as <- _. exact Hlt.
      * injection Hsplit as <- _.
        specialize (Hbefore y (or_introl eq_refl)). lia.
    + destruct (IH first) as (before & after & Hsplit & Hbefore & Hafter).
      destruct before as [|b before'].
      * injection Hsplit as Hbest Hrest.
        exists [], (y :: after). split; [cbn [app]; rewrite <- Hbest, Hrest; reflexivity|].
        split; [intros x []|].
        intros x [<-|Hx]; [rewrite <- Hbest; lia|now apply Hafter].
      * injection Hsplit as <- Hrest.
        exists (first :: y :: before'), after.
        split; [cbn [app]; now rewrite <- Hrest|]. split; [|exact Hafter].
        pose proof (Hbefore first (or_introl eq_refl)) as Hfirst.
        intros x [<-|[<-|Hx]]; [exact Hfirst|lia|apply Hbefore; now right].
Qed.

(** What [daily_analysis] counts: appliance_days holds, for every name that
    is the maximum of some date, the number of such dates, and nothing
    else; most_frequent_max is (None, 0) exactly when no date has rows, and
    otherwise a name with its number of dates, which no other name exceeds
    and which no name earlier in appliance_days reaches; total_days is the
    number of dates in daily_max_consumers. *)
Theorem daily_analysis_counts (set_iter : list string -> list string)
    (current_month : string) (req : request) (db : database)
    (page : DailyAnalysis.page) :
  fst (daily_analysis set_iter current_month req db) = Render page ->
  (forall n,
     Dict.get n (DailyAnalysis.appliance_days page)
     = if days_won n (DailyAnalysis.daily_max_consumers page) =? 0 then None
       else Some (days_won n (DailyAnalysis.daily_max_consumers page)))
  /\ match DailyAnalysis.most_frequent_max page with
     | (None, c) => c = 0 /\ DailyAnalysis.daily_max_consumers page = []
     | (Some n, c) =>
         c = days_won n (DailyAnalysis.daily_max_consumers page)
         /\ 0 < c
         /\ (forall n', days_won n' (DailyAnalysis.daily_max_consumers page) <= c)
         /\ exists before after,
              DailyAnalysis.appliance_days page = before ++ (n, c) :: after
              /\ forall x, In x before -> snd x < c
     end
  /\ DailyAnalysis.total_days page
     = Z.of_nat (List.length (DailyAnalysis.daily_max_consumers page)).
Proof.
  unfold daily_analysis.
  destruct (analysis_dates_loop _ _ _ _) as [e|daily_max]; cbn [fst]; [discriminate|].
  intros [= <-]. cbn.
  assert (Hget : forall n,
             Dict.get n (count_days daily_max)
             = if days_won n daily_max =? 0 then None
               else Some (days_won n daily_max)).
  { intros n. unfold count_days. rewrite count_days_fold. reflexivity. }
  split; [exact Hget|]. split; [|reflexivity].
  destruct (count_days daily_max) as [|first others] eqn:Hcount.
  - cbn. split; [reflexivity|].
    destruct daily_max as [|[date [n m]] daily_max]; [reflexivity|].
    specialize (Hget n). unfold days_won in Hget. cbn in Hget.
    rewrite String.eqb_refl in Hget. cbn in Hget. discriminate.
  - cbn [most_frequent].
    destruct (max_by_count_fold others first)
      as (before & after & Hsplit & Hbefore & Hafter).
    set (best := fold_left _ others first) in *.
    assert (Hkeys : NoDup (Dict.keys (first :: others))).
    { rewrite <- Hcount. apply count_days_keys. constructor. }
    assert (Hbest : Dict.get (fst best) (first :: others) = Some (snd best)).
    { apply get_of_In; [exact Hkeys|]. rewrite Hsplit.
      apply in_or_app. right. left. now destruct best. }
    rewrite Hget in Hbest.
    destruct (Z.eqb_spec (days_won (fst best) daily_max) 0) as [|Hpos];
      [discriminate|].
    injection Hbest as Hbest.
    assert (Hnonneg : forall n', 0 <= days_won n' daily_max)
      by (intros n'; unfold days_won; lia).
    split; [now symmetry|]. split; [specialize (Hnonneg (fst best)); lia|].
    split; [|exists before, after; split; [now destruct best|exact Hbefore]].
    intros n'. specialize (Hget n').
    destruct (Z.eqb_spec (days_won n' daily_max) 0) as [Hzero|Hsome].
    + specialize (Hnonneg (fst best)). lia.
    + apply get_Some_In in Hget. rewrite Hsplit in Hget.
      apply in_app_or in Hget as [Hin|[Heq|Hin]].
      * specialize (Hbefore _ Hin). cbn in Hbefore. lia.
      * rewrite Heq. cbn. lia.
      * specialize (Hafter _ Hin). cbn in Hafter. lia.
Qed.

Lemma daily_analysis_counts_witness :
  fst (daily_analysis first_seen_order "2024-06" june_usa two_appliance_db)
  = Render (DailyAnalysis.mk "2024-06"
              [("2024-06-01", ("Fridge", PyFloat 0.75)); ("2024-06-02", ("AC", PyFloat 2))]
              [("Fridge", 1); ("AC", 1)] (Some "Fridge", 1) 2)
  /\ forall n',
       days_won n' [("2024-06-01", ("Fridge", PyFloat 0.75));
                    ("2024-06-02", ("AC", PyFloat 2))] <= 1.
Proof.
  assert (Hpage : fst (daily_analysis first_seen_order "2024-06" june_usa
                         two_appliance_db)
                  = Render (DailyAnalysis.mk "2024-06"
                              [("2024-06-01", ("Fridge", PyFloat 0.75));
                               ("2024-06-02", ("AC", PyFloat 2))]
                              [("Fridge", 1); ("AC", 1)] (Some "Fridge", 1) 2))
    by (vm_compute; reflexivity).
  split; [exact Hpage|].
  exact (proj1 (proj2 (proj2 (proj1 (proj2
           (daily_analysis_counts first_seen_order "2024-06" june_usa
              two_appliance_db _ Hpage)))))).
Defined.

Lemma keys_set_new {K V : Type} `{EqKey K} (k : K) (v : V) (d : Dict.t K V) :
  ~ In k (Dict.keys d) -> Dict.keys (Dict.set k v d) = Dict.keys d ++ [k].
Proof.
  induction d as [|[k' v'] d IH]; simpl; intros Hnotin; [reflexivity|].
  destruct (key_eqb_spec k k') as [->|Hne]; [exfalso; auto|].
  simpl. f_equal. apply IH. auto.
Qed.

(** The loop over the dates gives each date of a duplicate-free iteration
    one key of its own, in the order of the iteration. *)
Lemma analysis_dates_loop_keys (appliance_map : Dict.t Z Appliance.t)
    (rows : list DailyConsumption.t) :
  forall (dates : list string) (daily_max daily_max' : Dict.t string (string * num)),
    NoDup dates ->
    (forall d, In d dates -> ~ In d (Dict.keys daily_max)) ->
    analysis_dates_loop appliance_map rows dates daily_max = inr daily_max' ->
    Dict.keys daily_max' = Dict.keys daily_max ++ dates.
Proof.
  induction dates as [|date dates IH]; intros daily_max daily_max' Hnd Hnew Hrun.
  - injection Hrun as <-. now rewrite app_nil_r.
  - cbn [analysis_dates_loop] in Hrun.
    destruct (analysis_day_loop appliance_map
                (filter (fun dc => String.eqb (DailyConsumption.date dc) date) rows)
                (PyInt 0) "") as [e|[m n]]; cbn [bind] in Hrun; [discriminate|].
    inversion Hnd as [|? ? Hnotin Hnd']; subst.
    assert (Hkeys : Dict.keys (Dict.set date (n, m) daily_max)
                    = Dict.keys daily_max ++ [date])
      by (apply keys_set_new, Hnew; now left).
    assert (Hnew' : forall d, In d dates ->
                      ~ In d (Dict.keys (Dict.set date (n, m) daily_max))).
    { intros d Hd. rewrite Hkeys, in_app_iff. intros [Hin|[<-|[]]]; [|contradiction].
      apply (Hnew d); [now right|exact Hin]. }
    rewrite (IH _ _ Hnd' Hnew' Hrun), Hkeys, <- app_assoc. reflexivity.
Qed.

Lemma count_days_sum :
  forall (items : Dict.t string (string * num)) (appliance_days : Dict.t string Z),
    fold_right Z.add 0
      (Dict.values
         (fold_left (fun appliance_days item =>
                       let max_appliance := fst (snd item) in
                       let seen := match Dict.get max_appliance appliance_days with
                                   | Some c => c
                                   | None => 0
                                   end in
                       Dict.set max_appliance (seen + 1) appliance_days)
                    items appliance_days))
    = fold_right Z.add 0 (Dict.values appliance_days) + Z.of_nat (List.length items).
Proof.
  assert (Hset : forall (k : string) (d : Dict.t string Z),
             fold_right Z.add 0
               (Dict.values (Dict.set k (match Dict.get k d with
                                         | Some c => c
                                         | None => 0
                                         end + 1) d))
             = fold_right Z.add 0 (Dict.values d) + 1).
  { intros k. induction d as [|[k' c'] d IHd]; cbn; [lia|].
    destruct (String.eqb k k'); cbn; [lia|].
    unfold Dict.values in IHd. rewrite IHd. lia. }
  induction items as [|item items IH]; intros appliance_days; cbn [fold_left List.length].
  - lia.
  - rewrite IH, Hset. lia.
Qed.

(** Every date of the month with a row is one day of the analysis:
    daily_max_consumers has the dates of the month's rows as its keys, each
    once, in the order the set of dates is iterated; total_days is the
    number of distinct dates; and the counts of appliance_days add up to
    total_days. *)
Theorem daily_analysis_days (set_iter : list string -> list string)
    (current_month : string) (req : request) (db : database)
    (page : DailyAnalysis.page) :
  iterates_set set_iter ->
  fst (daily_analysis set_iter current_month req db) = Render page ->
  Dict.keys (DailyAnalysis.daily_max_consumers page)
  = set_iter (map DailyConsumption.date
                  (month_rows (args_get "month" current_month req) db))
  /\ DailyAnalysis.total_days page
     = Z.of_nat (List.length
                   (nodup string_dec
                      (map DailyConsumption.date
                           (month_rows (args_get "month" current_month req) db))))
  /\ fold_right Z.add 0 (Dict.values (DailyAnalysis.appliance_days page))
     = DailyAnalysis.total_days page.
Proof.
  intros Hset. unfold daily_analysis.
  destruct (analysis_dates_loop _ _ _ _) as [e|daily_max] eqn:Hrun; cbn [fst];
    [discriminate|].
  intros [= <-].
  cbn [DailyAnalysis.daily_max_consumers DailyAnalysis.total_days
       DailyAnalysis.appliance_days].
  set (dates := map DailyConsumption.date
                    (month_rows (args_get "month" current_month req) db)) in *.
  destruct (Hset dates) as [Hnd Hin].
  assert (Hkeys : Dict.keys daily_max = set_iter dates).
  { apply (analysis_dates_loop_keys _ _ _ _ _ Hnd) in Hrun; [exact Hrun|].
    intros d _ []. }
  split; [exact Hkeys|]. split.
  - f_equal. unfold Dict.keys in Hkeys.
    rewrite <- (length_map fst daily_max), Hkeys.
    apply Permutation_length, NoDup_Permutation;
      [exact Hnd|apply NoDup_nodup|].
    intros d. rewrite Hin. symmetry. apply nodup_In.
  - unfold count_days. rewrite count_days_sum. reflexivity.
Qed.

Lemma daily_analysis_days_witness :
  iterates_set first_seen_order
  /\ fst (daily_analysis first_seen_order "2024-06" june_usa two_appliance_db)
     = Render (DailyAnalysis.mk "2024-06"
                 [("2024-06-01", ("Fridge", PyFloat 0.75));
                  ("2024-06-02", ("AC", PyFloat 2))]
                 [("Fridge", 1); ("AC", 1)] (Some "Fridge", 1) 2)
  /\ 2 = Z.of_nat (List.length
                     (nodup string_dec
                        (map DailyConsumption.date
                             (month_rows "2024-06" two_appliance_db)))).
Proof.
  assert (Hpage : fst (daily_analysis first_seen_order "2024-06" june_usa
                         two_appliance_db)
                  = Render (DailyAnalysis.mk "2024-06"
                              [("2024-06-01", ("Fridge", PyFloat 0.75));
                               ("2024-06-02", ("AC", PyFloat 2))]
                              [("Fridge", 1); ("AC", 1)] (Some "Fridge", 1) 2))
    by (vm_compute; reflexivity).
  split; [exact first_seen_order_iterates|]. split; [exact Hpage|].
  exact (proj1 (proj2 (daily_analysis_days first_seen_order "2024-06" june_usa
                         two_appliance_db _ first_seen_order_iterates Hpage))).
Defined.

(** ** The monthly totals *)

Lemma zero_totals_fold_keys (k : string) :
  forall (todo : list Appliance.t) (totals : Dict.t string num),
    In k (Dict.keys
            (fold_left (fun monthly_totals appliance =>
                          Dict.set (Appliance.name appliance) (PyInt 0) monthly_totals)
                       todo totals)) ->
    (exists a, In a todo /\ Appliance.name a = k) \/ In k (Dict.keys totals).
Proof.
  induction todo as [|b todo IH]; cbn [fold_left]; intros totals Hin; [now right|].
  apply IH in Hin as [(a & Ha & Hname)|Hin].
  - left. exists a. split; [now right|exact Hname].
  - apply keys_set in Hin as [->|Hin]; [|now right].
    left. exists b. split; [now left|reflexivity].
Qed.

Lemma zero_totals_lookup (appliances : list Appliance.t) (k : string) :
  Dict.get k (zero_totals appliances)
  = if existsb (fun a => String.eqb (Appliance.name a) k) appliances
    then Some (PyInt 0) else None.
Proof.
  destruct (existsb _ appliances) eqn:Hex.
  - apply existsb_exists in Hex as (a & Ha & Hname). apply String.eqb_eq in Hname.
    rewrite <- Hname. now apply zero_totals_get.
  - apply get_None_iff. intros Hin.
    apply zero_totals_fold_keys in Hin as [(a & Ha & Hname)|[]].
    assert (Htrue : existsb (fun a => String.eqb (Appliance.name a) k) appliances = true)
      by (apply existsb_exists; exists a; split; [exact Ha|now apply String.eqb_eq]).
    congruence.
Qed.

Section Totals.

Variable appliances : list Appliance.t.

Let running (k : string) (rows : list DailyConsumption.t) (before : option num)
    : option num :=
  match before with
  | Some total => Some (fold_left Py.add (named_consumptions appliances k rows) total)
  | None => None
  end.

Lemma monthly_day_loop_totals (k : string) :
  forall (day : list DailyConsumption.t) (totals totals' : Dict.t string num)
         (m m' : num) (n n' : string),
    monthly_day_loop (appliance_map_of appliances) day totals m n
    = inr (totals', m', n') ->
    Dict.get k totals' = running k day (Dict.get k totals).
Proof.
  induction day as [|dc day IH]; intros totals totals' m m' n n' Hrun.
  - injection Hrun as <- _ _. unfold running. now destruct (Dict.get k totals).
  - cbn [monthly_day_loop] in Hrun. unfold getitem in Hrun.
    unfold running, named_consumptions. cbn [filter]. unfold row_named at 1.
    destruct (Dict.get (DailyConsumption.appliance_id dc) (appliance_map_of appliances))
      as [app|]; cbn [bind] in Hrun; [|discriminate].
    destruct (Dict.get (Appliance.name app) totals) as [total|] eqn:Htotal;
      cbn [bind] in Hrun; [|discriminate].
    assert (Hstep : Dict.get k totals'
                    = running k day
                        (Dict.get k (Dict.set (Appliance.name app)
                                       (Py.add total
                                          (PyFloat (DailyConsumption.consumption_kwh dc)))
                                       totals)))
      by (destruct (Py.gt _ m); eapply IH; exact Hrun).
    rewrite Hstep. unfold running, named_consumptions.
    destruct (String.eqb_spec (Appliance.name app) k) as [Hname|Hname].
    + rewrite <- Hname, get_set_same, Htotal. reflexivity.
    + rewrite get_set_other by congruence. reflexivity.
Qed.

Lemma monthly_dates_loop_totals (rows : list DailyConsumption.t) (k : string) :
  forall (dates : list string) (totals totals' : Dict.t string num)
         (daily_max daily_max' : Dict.t string (string * num)),
    monthly_dates_loop (appliance_map_of appliances) rows dates totals daily_max
    = inr (totals', daily_max') ->
    Dict.get k totals'
    = running k
        (flat_map (fun date =>
                     filter (fun dc => String.eqb (DailyConsumption.date dc) date) rows)
                  dates)
        (Dict.get k totals).
Proof.
  induction dates as [|date dates IH]; intros totals totals' daily_max daily_max' Hrun.
  - injection Hrun as <- _. unfold running. now destruct (Dict.get k totals).
  - cbn [monthly_dates_loop] in Hrun.
    destruct (monthly_day_loop (appliance_map_of appliances)
                (filter (fun dc => String.eqb (DailyConsumption.date dc) date) rows)
                totals (PyInt 0) "") as [e|[[totals1 m1] n1]] eqn:Hday;
      cbn [bind] in Hrun; [discriminate|].
    rewrite (IH _ _ _ _ Hrun), (monthly_day_loop_totals k _ _ _ _ _ _ _ Hday).
    unfold running, named_consumptions. cbn [flat_map].
    destruct (Dict.get k totals); [|reflexivity].
    now rewrite filter_app, map_app, fold_left_app.
Qed.

End Totals.

(** Splitting a table on a predicate loses and repeats nothing. *)
Lemma filter_split_perm {Row : Type} (keep : Row -> bool) :
  forall table : list Row,
    Permutation table (filter keep table ++ filter (fun r => negb (keep r)) table).
Proof.
  intros table. induction table as [|row table IH]; cbn [filter]; [constructor|].
  destruct (keep row); cbn [negb app].
  - now constructor.
  - now apply Permutation_cons_app.
Qed.

Lemma flat_map_agree {A B : Type} (f g : A -> list B) (l : list A) :
  (forall a, In a l -> f a = g a) -> flat_map f l = flat_map g l.
Proof.
  induction l as [|a l IH]; cbn [flat_map]; intros Hfg; [reflexivity|].
  rewrite (Hfg a (or_introl eq_refl)), IH; [reflexivity|].
  intros b Hb. apply Hfg. now right.
Qed.

Lemma filter_within {Row : Type} (p q : Row -> bool) (table : list Row) :
  (forall r, p r = true -> q r = true) ->
  filter p (filter q table) = filter p table.
Proof.
  intros Hpq. induction table as [|r table IH]; cbn [filter]; [reflexivity|].
  destruct (q r) eqn:Hq; cbn [filter]; [now rewrite IH|].
  destruct (p r) eqn:Hp; [|exact IH].
  rewrite (Hpq r Hp) in Hq. discriminate.
Qed.

(** Visiting the rows date by date, over dates that are all different and
    cover the rows, meets every row exactly once. *)
Lemma flat_map_dates_perm :
  forall (dates : list string) (rows : list DailyConsumption.t),
    NoDup dates ->
    (forall dc, In dc rows -> In (DailyConsumption.date dc) dates) ->
    Permutation
      (flat_map (fun date =>
                   filter (fun dc => String.eqb (DailyConsumption.date dc) date) rows)
                dates)
      rows.
Proof.
  induction dates as [|date dates IH]; intros rows Hnd Hcover.
  - destruct rows as [|dc rows]; [constructor|].
    destruct (Hcover dc (or_introl eq_refl)).
  - inversion Hnd as [|? ? Hnotin Hnd']; subst. cbn [flat_map].
    set (rest := filter (fun dc => negb (String.eqb (DailyConsumption.date dc) date)) rows).
    apply Permutation_trans
      with (filter (fun dc => String.eqb (DailyConsumption.date dc) date) rows ++ rest);
      [|apply Permutation_sym, filter_split_perm].
    apply Permutation_app_head.
    rewrite (flat_map_agree _
               (fun d => filter (fun dc => String.eqb (DailyConsumption.date dc) d) rest)).
    + apply (IH rest Hnd'). intros dc Hdc. unfold rest in Hdc.
      apply filter_In in Hdc as [Hdc Hne].
      destruct (Hcover dc Hdc) as [Heq|Hin]; [|exact Hin].
      rewrite <- Heq, String.eqb_refl in Hne. discriminate.
    + intros d Hd. unfold rest. symmetry. apply filter_within.
      intros dc Hdate. apply String.eqb_eq in Hdate. apply negb_true_iff.
      apply String.eqb_neq. congruence.
Qed.

(** What monthly_totals holds: a key for every name an appliance is
    registered under and for nothing else; under a name, the consumptions of
    the month's rows of the appliances of that name, added one by one to
    the int 0 in the order the aggregation visits the rows (an appliance
    without rows that month stays at the int 0, and appliances that share a
    name share a total); and that order meets every row of the month
    exactly once. *)
Theorem monthly_totals_sums (set_iter : list string -> list string)
    (current_month : string) (req : request) (db : database)
    (page : MonthlyResults.page) :
  iterates_set set_iter ->
  fst (monthly_results set_iter current_month req db) = Render page ->
  (forall n,
     Dict.get n (MonthlyResults.monthly_totals page)
     = if existsb (fun a => String.eqb (Appliance.name a) n) (appliance_table db)
       then Some (fold_left Py.add
                    (named_consumptions (appliance_table db) n
                       (visited set_iter
                          (month_rows (args_get "month" current_month req) db)))
                    (PyInt 0))
       else None)
  /\ Permutation
       (visited set_iter (month_rows (args_get "month" current_month req) db))
       (month_rows (args_get "month" current_month req) db).
Proof.
  intros Hset. unfold monthly_results.
  destruct (monthly_aggregation _ _ _) as [e|[totals daily_max]] eqn:Hagg; cbn [fst];
    [discriminate|].
  destruct (Dict.get _ COUNTRY_DATA) as [tariff|]; cbn [fst]; [|discriminate].
  intros [= <-]. cbn [MonthlyResults.monthly_totals]. split.
  - intros n. unfold monthly_aggregation in Hagg.
    rewrite (monthly_dates_loop_totals _ _ n _ _ _ _ _ Hagg), zero_totals_lookup.
    now destruct (existsb _ (appliance_table db)).
  - destruct (Hset (map DailyConsumption.date
                        (month_rows (args_get "month" current_month req) db)))
      as [Hnd Hin].
    apply flat_map_dates_perm; [exact Hnd|].
    intros dc Hdc. apply Hin. now apply in_map.
Qed.

Lemma monthly_totals_sums_witness :
  iterates_set first_seen_order
  /\ fst (monthly_results first_seen_order "2024-06" june_usa two_appliance_db)
     = Render (MonthlyResults.mk "2024-06" "USA" (PyFloat 3.5)
                 (PyFloat (3.5 * 0.15)) (PyFloat 1.75)
                 [("Fridge", PyFloat 1.5); ("AC", PyFloat 2)]
                 [("2024-06-01", ("Fridge", PyFloat 0.75));
                  ("2024-06-02", ("AC", PyFloat 2))])
  /\ Some (PyFloat 1.5)
     = Some (fold_left Py.add
               (named_consumptions (appliance_table two_appliance_db) "Fridge"
                  (visited first_seen_order (month_rows "2024-06" two_appliance_db)))
               (PyInt 0)).
Proof.
  assert (Hpage : fst (monthly_results first_seen_order "2024-06" june_usa
                         two_appliance_db)
                  = Render (MonthlyResults.mk "2024-06" "USA" (PyFloat 3.5)
                              (PyFloat (3.5 * 0.15)) (PyFloat 1.75)
                              [("Fridge", PyFloat 1.5); ("AC", PyFloat 2)]
                              [("2024-06-01", ("Fridge", PyFloat 0.75));
                               ("2024-06-02", ("AC", PyFloat 2))]))
    by (vm_compute; reflexivity).
  split; [exact first_seen_order_iterates|]. split; [exact Hpage|].
  exact (proj1 (monthly_totals_sums first_seen_order "2024-06" june_usa
                  two_appliance_db _ first_seen_order_iterates Hpage) "Fridge").
Defined.

(** ** The months on offer *)

Lemma insert_desc_perm (x : string) (sorted : list string) :
  Permutation (insert_desc x sorted) (x :: sorted).
Proof.
  induction sorted as [|y rest IH]; cbn [insert_desc]; [reflexivity|].
  destruct (String.leb y x); [reflexivity|].
  rewrite IH. apply perm_swap.
Qed.

Lemma sorted_reverse_perm (xs : list string) : Permutation (sorted_reverse xs) xs.
Proof.
  unfold sorted_reverse. induction xs as [|x xs IH]; cbn [fold_right]; [constructor|].
  rewrite insert_desc_perm. now constructor.
Qed.

Lemma insert_desc_sorted (x : string) (sorted : list string) :
  Sorted (fun newer older => String.leb older newer = true) sorted ->
  Sorted (fun newer older => String.leb older newer = true) (insert_desc x sorted).
Proof.
  induction sorted as [|y rest IH]; cbn [insert_desc]; intros Hsorted.
  - repeat constructor.
  - destruct (String.leb y x) eqn:Hle.
    + constructor; [exact Hsorted|]. constructor. exact Hle.
    + inversion Hsorted as [|? ? Hrest Hhd]; subst.
      assert (Hxy : String.leb x y = true)
        by (destruct (String.leb_total x y) as [H|H]; [exact H|congruence]).
      constructor; [now apply IH|].
      destruct rest as [|z rest']; cbn [insert_desc].
      * constructor. exact Hxy.
      * destruct (String.leb z x); constructor; [exact Hxy|].
        now inversion Hhd.
Qed.

Lemma sorted_reverse_sorted (xs : list string) :
  Sorted (fun newer older => String.leb older newer = true) (sorted_reverse xs).
Proof.
  unfold sorted_reverse. induction xs as [|x xs IH]; cbn [fold_right]; [constructor|].
  now apply insert_desc_sorted.
Qed.

(** The months offered by the report: every month (the first seven
    characters of a date) that has a row, each once, and each followed by
    one that does not come after it in the order of strings. *)
Theorem available_months_sorted (set_iter : list string -> list string)
    (db : database) :
  iterates_set set_iter ->
  Sorted (fun newer older => String.leb older newer = true)
         (available_months set_iter db)
  /\ NoDup (available_months set_iter db)
  /\ forall month,
       In month (available_months set_iter db)
       <-> exists dc, In dc (daily_consumption_table db)
                      /\ py_slice_to 7 (DailyConsumption.date dc) = month.
Proof.
  intros Hset. unfold available_months.
  set (months := map (py_slice_to 7)
                     (nodup string_dec
                        (map DailyConsumption.date (daily_consumption_table db)))).
  destruct (Hset months) as [Hnd Hin].
  pose proof (sorted_reverse_perm (set_iter months)) as Hperm.
  split; [apply sorted_reverse_sorted|]. split.
  - apply (Permutation_NoDup (Permutation_sym Hperm) Hnd).
  - intros month. split.
    + intros Hmonth. apply (Permutation_in _ Hperm), Hin in Hmonth.
      unfold months in Hmonth. apply in_map_iff in Hmonth as (date & Hcut & Hdate).
      apply nodup_In, in_map_iff in Hdate as (dc & <- & Hdc). eauto.
    + intros (dc & Hdc & <-).
      apply (Permutation_in _ (Permutation_sym Hperm)), Hin.
      unfold months. apply in_map, nodup_In. now apply in_map.
Qed.

Lemma available_months_sorted_witness :
  iterates_set first_seen_order
  /\ available_months first_seen_order
       (snd (daily_input decimal_float "2024-07"
               (post [("date", "2024-07-04"); ("hours_1", "1")]) two_appliance_db))
     = ["2024-07"; "2024-06"]
  /\ NoDup (available_months first_seen_order
              (snd (daily_input decimal_float "2024-07"
                      (post [("date", "2024-07-04"); ("hours_1", "1")])
                      two_appliance_db))).
Proof.
  split; [exact first_seen_order_iterates|]. split; [vm_compute; reflexivity|].
  exact (proj1 (proj2 (available_months_sorted first_seen_order _
                         first_seen_order_iterates))).
Defined.

(** ** The month filter *)






(** ** Deleting an appliance, seen through the day's JSON *)

Lemma delete_appliance_removes_id (appliance_id : Z) (db : database) :
  ~ In appliance_id
       (map Appliance.id (appliance_table (snd (delete_appliance appliance_id db)))).
Proof.
  unfold delete_appliance.
  destruct (appliance_get appliance_id db) as [appliance|] eqn:Hget; cbn [snd].
  - unfold appliance_get in Hget. apply find_some in Hget as [_ Hid].
    apply Z.eqb_eq in Hid. cbn [session_delete appliance_table].
    rewrite in_map_iff. intros (a & Ha & Hin). apply filter_In in Hin as [_ Hne].
    rewrite Ha, Hid, Z.eqb_refl in Hne. discriminate.
  - assert (Hdb : snd (if 2 ^ 63 <=? appliance_id
                       then (@Raise unit OverflowError, db)
                       else (Abort 404, db)) = db)
      by now destruct (2 ^ 63 <=? appliance_id).
    rewrite Hdb. intros Hin. apply appliance_get_Some in Hin as (a & Ha & _).
    congruence.
Qed.

(** Once a request to delete an appliance id has been served, no day's JSON
    mentions that id any more: in a database the application can reach, the
    rows of the appliance are gone with it. *)
Theorem delete_appliance_then_get_day_data (py_float : string -> option float)
    (appliance_id : Z) (db : database) (date : string) :
  reachable py_float db ->
  Dict.get appliance_id (get_day_data date (snd (delete_appliance appliance_id db)))
  = None.
Proof.
  intros Hreach.
  pose proof (reachable_consistent py_float _
                (reach_delete_appliance py_float appliance_id db Hreach))
    as ([_ _ Hfk] & Hkeys & _).
  rewrite (get_day_data_lookup _ _ _ Hkeys).
  destruct (find _ _) as [dc|] eqn:Hfind; [|reflexivity].
  exfalso. apply find_some in Hfind as [Hdc Hkey].
  apply same_day_appliance_iff in Hkey. injection Hkey as _ Hown.
  apply (delete_appliance_removes_id appliance_id db).
  pose proof (Hfk dc Hdc) as Hin. now rewrite Hown in Hin.
Qed.

Lemma delete_appliance_then_get_day_data_witness :
  reachable decimal_float two_appliance_db
  /\ Dict.get 1 (get_day_data "2024-06-02" two_appliance_db) = Some (5%float, 0.75%float)
  /\ Dict.get 1 (get_day_data "2024-06-02" (snd (delete_appliance 1 two_appliance_db)))
     = None.
Proof.
  split; [exact reachable_two_appliance_db|]. split; [vm_compute; reflexivity|].
  exact (delete_appliance_then_get_day_data decimal_float 1 two_appliance_db
           "2024-06-02" reachable_two_appliance_db).
Defined.

(** ** What the NOT NULL columns keep out *)

Lemma flush_clean (rows rows' : list DailyConsumption.t) :
  flush rows = inr rows' ->
  forall dc, In dc rows' ->
             is_nan (DailyConsumption.hours_used dc) = false
             /\ is_nan (DailyConsumption.consumption_kwh dc) = false.
Proof.
  unfold flush. destruct (existsb _ rows) eqn:Hnan; [discriminate|].
  intros [= <-] dc Hdc.
  apply orb_false_iff.
  destruct (is_nan (DailyConsumption.hours_used dc)
            || is_nan (DailyConsumption.consumption_kwh dc)) eqn:Hdcnan; [|reflexivity].
  assert (Htrue : existsb (fun dc => is_nan (DailyConsumption.hours_used dc)
                                     || is_nan (DailyConsumption.consumption_kwh dc))
                          rows = true)
    by (apply existsb_exists; now exists dc).
  congruence.
Qed.

(** No database the application can reach holds a NaN as a power, as hours
    or as a consumption: the requests that would have stored one failed and
    stored nothing. *)
Theorem reachable_no_nan (py_float : string -> option float) (db : database) :
  reachable py_float db -> no_nan db.
Proof.
  induction 1 as [|req db Hreach [Happs Hrows]|appliance_id db Hreach [Happs Hrows]
                 |current_month req db Hreach [Happs Hrows]].
  - split; intros x [].
  - unfold appliance_setup.
    destruct (method req); [now split|].
    destruct (Dict.get "name" (form req)) as [name|]; [|now split].
    destruct (Dict.get "power_watts" (form req)) as [s|]; [|now split].
    destruct (py_float s) as [power_watts|]; [|now split].
    destruct (is_nan power_watts) eqn:Hnan; [now split|].
    split; cbn [snd appliance_table daily_consumption_table]; [|exact Hrows].
    intros a Ha. apply in_app_iff in Ha as [Ha|[<-|[]]]; [now apply Happs|exact Hnan].
  - unfold delete_appliance.
    destruct (appliance_get appliance_id db) as [appliance|];
      [|destruct (2 ^ 63 <=? appliance_id); now split].
    split; cbn [snd session_delete appliance_table daily_consumption_table].
    + intros a Ha. apply filter_In in Ha as [Ha _]. now apply Happs.
    + intros dc Hdc. unfold delete_rows in Hdc. apply filter_In in Hdc as [Hdc _].
      now apply Hrows.
  - pose proof (conj Happs Hrows : no_nan db) as Hsame.
    unfold daily_input.
    destruct (appliance_table db) as [|a0 apps] eqn:Htable; [exact Hsame|].
    destruct (method req); [exact Hsame|].
    destruct (Dict.get "date" (form req)) as [date_str|]; [|exact Hsame].
    destruct (daily_input_loop _ _ _ _ _) as [e|rows']; cbn [bind]; [exact Hsame|].
    destruct (flush rows') as [e|rows0] eqn:Hflush; [exact Hsame|].
    split; cbn [snd appliance_table daily_consumption_table].
    + exact Happs.
    + now apply (flush_clean _ _ Hflush).
Qed.

Lemma reachable_no_nan_witness :
  reachable decimal_float two_appliance_db /\ no_nan two_appliance_db.
Proof.
  split; [exact reachable_two_appliance_db|].
  exact (reachable_no_nan decimal_float two_appliance_db reachable_two_appliance_db).
Defined.
